(** * Panoramix: selector-to-signature resolution and calldata parameter naming

    Shallow embedding of [panoramix/utils/signatures.py] and of the
    corpus-maintenance part of [panoramix/utils/supplement.py].

    Python values are modelled as the code uses them: integers as [Z],
    [str] as [string], tuples as an inductive of nested lists, dictionaries
    with insertion order as association lists, [None] as [option], raised
    exceptions as the [Raise] branch of a small error monad, and the scores
    (Python true division) as binary64 floats. *)

From Stdlib Require Import ZArith List String Ascii Bool Lia.
From Stdlib Require Import DecimalString Permutation Floats.
From Stdlib Require QArith HexString.
Import ListNotations.

Set Implicit Arguments.
Set Warnings "-register-all".

(** ** Exceptions and the error monad *)

Inductive exn : Type :=
| AttributeError
| TypeError
| IndexError
| ZeroDivisionError
| FileNotFoundError
| DatabaseError
| AssertionError.

Inductive result (A : Type) : Type :=
| Ok (a : A)
| Raise (e : exn).

Arguments Ok {A} a.
Arguments Raise {A} e.

Definition bind {A B : Type} (m : result A) (k : A -> result B) : result B :=
  match m with
  | Ok a => k a
  | Raise e => Raise e
  end.

Notation "x <- m ;; k" := (bind m (fun x => k))
  (at level 61, m at next level, right associativity).

(** ** Python strings: [in], [split], [repr], [str] of an int *)

Module PyStr.

Local Open Scope string_scope.

(** [sub in s] for two strings. *)
Fixpoint contains (sub s : string) : bool :=
  String.prefix sub s ||
  match s with
  | EmptyString => false
  | String _ s' => contains sub s'
  end.

(** [s.split(sep)] for a one-character separator: never the empty list. *)
Fixpoint split (sep : ascii) (s : string) : list string :=
  match s with
  | EmptyString => [EmptyString]
  | String c s' =>
      if Ascii.eqb c sep then EmptyString :: split sep s'
      else match split sep s' with
           | [] => [String c EmptyString]
           | w :: ws => String c w :: ws
           end
  end.

(** [sep.join(l)] *)
Fixpoint join (sep : string) (l : list string) : string :=
  match l with
  | [] => EmptyString
  | [x] => x
  | x :: r => x ++ sep ++ join sep r
  end.

(** [str(n)] and [f"{n}"] for an [int]. *)
Definition of_int (z : Z) : string := NilZero.string_of_int (Z.to_int z).

Definition hex_digit (n : nat) : ascii :=
  match n with
  | 0 => "0" | 1 => "1" | 2 => "2" | 3 => "3" | 4 => "4" | 5 => "5"
  | 6 => "6" | 7 => "7" | 8 => "8" | 9 => "9" | 10 => "a" | 11 => "b"
  | 12 => "c" | 13 => "d" | 14 => "e" | _ => "f"
  end%char.

Definition squote : ascii := "'"%char.
Definition dquote : ascii := Ascii.ascii_of_nat 34.
Definition backslash : ascii := "\"%char.

Fixpoint mem_char (c : ascii) (s : string) : bool :=
  match s with
  | EmptyString => false
  | String d s' => Ascii.eqb c d || mem_char c s'
  end.

(** The quote CPython's [repr] picks: a double quote only when the text has
    a single quote and no double quote. *)
Definition quote_of (s : string) : ascii :=
  if mem_char squote s && negb (mem_char dquote s) then dquote else squote.

(** One character of [repr(s)] under quote [q].  Strings are sequences of
    bytes here; a byte from 128 up belongs to the UTF-8 encoding of a
    non-ASCII character and is copied. *)
Definition repr_char (q c : ascii) : string :=
  let n := Ascii.nat_of_ascii c in
  if Ascii.eqb c q || Ascii.eqb c backslash then String backslash (String c EmptyString)
  else if Nat.eqb n 9 then String backslash "t"
  else if Nat.eqb n 10 then String backslash "n"
  else if Nat.eqb n 13 then String backslash "r"
  else if Nat.ltb n 32 || Nat.eqb n 127 then
    String backslash
      (String "x" (String (hex_digit (n / 16)) (String (hex_digit (n mod 16)) EmptyString)))
  else String c EmptyString.

Fixpoint escape (q : ascii) (s : string) : string :=
  match s with
  | EmptyString => EmptyString
  | String c s' => repr_char q c ++ escape q s'
  end.

(** [repr(s)] for a [str]. *)
Definition repr (s : string) : string :=
  let q := quote_of s in
  String q (escape q s ++ String q EmptyString).

(** [str(l)] for a list whose elements have the given [repr]s. *)
Definition list_repr (items : list string) : string :=
  "[" ++ join ", " items ++ "]".

End PyStr.

(** ** Symbolic expressions *)

(** The decompiler's expressions are Python tuples over strings and ints. *)
Inductive expr : Type :=
| EInt (z : Z)
| EStr (s : string)
| ETuple (l : list expr).

Module Expr.

Local Open Scope string_scope.

(** [repr(e)]: ints in decimal, strings quoted, tuples parenthesised, a
    one-element tuple with its trailing comma. *)
Fixpoint repr (e : expr) : string :=
  match e with
  | EInt z => PyStr.of_int z
  | EStr s => PyStr.repr s
  | ETuple l =>
      let fix items (l : list expr) : list string :=
        match l with
        | [] => []
        | x :: r => repr x :: items r
        end in
      match l with
      | [x] => "(" ++ repr x ++ ",)"
      | _ => "(" ++ PyStr.join ", " (items l) ++ ")"
      end
  end.

(** [str(e)] *)
Definition str (e : expr) : string :=
  match e with
  | EStr s => s
  | _ => repr e
  end.

End Expr.

(** ** The data model of [signatures.py] *)

(** One element of a signature's [params]: [{"type": t, "name": n}]. *)
Record Param : Type := mkParam { p_type : string; p_name : string }.

(** A row of the corpus as [fetch_sigs] returns it. *)
Record SignatureRecord : Type := mkSig {
  s_hash : string;
  s_name : string;
  s_folded_name : string;
  s_params : list Param;
  s_cooccurs : list string
}.

(** An entry of the ABI: a Python dict over the keys ["fname"], ["name"],
    ["folded_name"], ["params"] and ["target"]; a key that is absent from
    the dict is [None] here.  The placeholder entry carries ["fname"], an
    adopted candidate carries ["name"] and ["params"]. *)
Record ABIEntry (target : Type) : Type := mkEntry {
  e_fname : option string;
  e_name : option string;
  e_folded_name : option string;
  e_params : option (list Param);
  e_target : option target
}.

(** A Python dict keyed by selector, in insertion order. *)
Definition ABIMap (target : Type) : Type := list (string * ABIEntry target).

(** The attributes [_storage.abi] and [_storage.func]; [None] is Python's
    [None]. *)
Record Storage (target : Type) : Type := mkStorage {
  st_abi : option (ABIMap target);
  st_func : option (ABIEntry target)
}.

(** ** [get_param_name] *)

Section Resolver.

Local Open Scope string_scope.
Local Open Scope Z_scope.

Variable target : Type.

(** The colour codes of [panoramix.utils.helpers]. *)
Variables COLOR_GREEN ENDC : string.

(** The expression clean-up of [panoramix.utils.helpers], applied to the
    whole calldata read before the offset shapes are matched. *)
Variable cleanup_mul_1 : expr -> expr.

(** Modelled from the spec: [colorize] of [panoramix.utils.helpers] is not
    among the sources; the name is rendered as it is, or wrapped in the
    colour code and the reset code when colour is asked for. *)
Definition colorize (text color : string) (add_color : bool) : string :=
  if add_color then color ++ text ++ ENDC else text.

(** Modelled from the spec: [match] of [panoramix.matcher] is not among the
    sources; [match(cd, ("cd", ":loc"))] succeeds on a two-element tuple
    whose head is the string ["cd"] and binds [loc] to the other element. *)
Definition match_cd (cd : expr) : option expr :=
  match cd with
  | ETuple [EStr tag; loc] => if String.eqb tag "cd" then Some loc else None
  | _ => None
  end.

(** [params[num]]: Python list indexing, a negative index counting from
    the end. *)
Definition py_index {A : Type} (l : list A) (num : Z) : result A :=
  let len := Z.of_nat (List.length l) in
  let i := if num <? 0 then num + len else num in
  if (i <? 0) || (len <=? i) then Raise IndexError
  else match nth_error l (Z.to_nat i) with
       | Some a => Ok a
       | None => Raise IndexError
       end.

(** The body of [get_param_name] once [loc] is bound: [cd] is
    [("cd", loc)].  The recursive calls of the source are on
    [("cd", point_loc)] with the default [add_color=False]. *)
Fixpoint get_param_name_at (st : Storage target) (loc : expr)
    (add_color : bool) {struct loc} : result expr :=
  let cd := ETuple [EStr "cd"; loc] in
  match st_abi st with
  | None => Ok cd
  | Some _ =>
  match st_func st with
  | None => Ok cd
  | Some func =>
  match e_params func with
  | None => Ok cd
  | Some params =>
      match loc with
      | EInt n =>
          if negb ((n - 4) mod 32 =? 0) then Ok cd
          else
            let num := (n - 4) / 32 in
            if Z.of_nat (List.length params) <=? num then Ok cd
            else
              p <- py_index params num ;;
              Ok (EStr (colorize (p_name p) COLOR_GREEN add_color))
      | ETuple [EStr op; EInt k; ETuple [EStr tag; point_loc]] =>
          let cd' := cleanup_mul_1 cd in
          (* ("add", 4, ("param", ":point_loc")) *)
          if String.eqb op "add" && (k =? 4) && String.eqb tag "param" then
            match point_loc with
            | EStr s => Ok (EStr (colorize (s ++ ".length") COLOR_GREEN add_color))
            | _ => Raise TypeError
            end
          (* ("add", 4, ("cd", ":point_loc")) *)
          else if String.eqb op "add" && (k =? 4) && String.eqb tag "cd" then
            r <- get_param_name_at st point_loc false ;;
            Ok (EStr (colorize (Expr.str r ++ ".length") COLOR_GREEN add_color))
          (* ("add", ":int:offset", ("cd", ":point_loc")) *)
          else if String.eqb op "add" && String.eqb tag "cd" then
            r <- get_param_name_at st point_loc false ;;
            Ok (EStr (colorize
                        (Expr.str r ++ "[" ++ PyStr.of_int ((k - 36) / 32) ++ "]")
                        COLOR_GREEN add_color))
          else Ok cd'
      | _ => Ok (cleanup_mul_1 cd)
      end
  end end end.

(** [get_param_name(cd, add_color)]: [match(...).loc] on a failed match is
    an attribute access on [None]. *)
Definition get_param_name (st : Storage target) (cd : expr)
    (add_color : bool) : result expr :=
  match match_cd cd with
  | None => Raise AttributeError
  | Some loc => get_param_name_at st loc add_color
  end.

End Resolver.

(** ** Expression shapes and storage states the properties speak of *)

Section Shapes.

Local Open Scope string_scope.

(** A calldata read [("cd", loc)]. *)
Definition cd_read (loc : expr) : expr := ETuple [EStr "cd"; loc].

(** The offset [("add", k, ("cd", inner))]. *)
Definition add_cd (k : Z) (inner : expr) : expr :=
  ETuple [EStr "add"; EInt k; ETuple [EStr "cd"; inner]].

(** The offset [("add", k, ("param", p))]. *)
Definition add_param (k : Z) (p : expr) : expr :=
  ETuple [EStr "add"; EInt k; ETuple [EStr "param"; p]].

(** The storage is active: an ABI is set and the bound function has a
    parameter list. *)
Definition active {target : Type} (st : Storage target) (params : list Param) : Prop :=
  exists abi func,
    st_abi st = Some abi /\ st_func st = Some func /\ e_params func = Some params.

End Shapes.

(** ** [match_score] *)

Module Score.

Local Open Scope string_scope.

(** An [int] as a [float]: exact for the list lengths and counts used here. *)
Definition float_of_int (z : Z) : float := PrimFloat.of_uint63 (Uint63.of_Z z).

(** [a / b] on two ints: Python's true division gives the correctly rounded
    binary64 quotient and raises on a zero divisor. *)
Definition true_div (a b : Z) : result float :=
  if Z.eqb b 0 then Raise ZeroDivisionError
  else Ok (PrimFloat.div (float_of_int a) (float_of_int b)).

(** [h in l] for a list of strings. *)
Definition mem (h : string) (l : list string) : bool :=
  existsb (String.eqb h) l.

(** The counting loops: how many elements of [xs] are in [ys]. *)
Fixpoint count_in (xs ys : list string) : Z :=
  match xs with
  | [] => 0
  | h :: r => ((if mem h ys then 1 else 0) + count_in r ys)%Z
  end.

(** [str(p)] for [{"type": t, "name": n}]. *)
Definition param_repr (p : Param) : string :=
  "{'type': " ++ PyStr.repr (p_type p) ++ ", 'name': " ++ PyStr.repr (p_name p) ++ "}".

(** [str(func["params"])] *)
Definition params_str (ps : list Param) : string :=
  PyStr.list_repr (map param_repr ps).

(** [0 if "param" in str(func["params"]) else 100] *)
Definition score_c (func : SignatureRecord) : Z :=
  if PyStr.contains "param" (params_str (s_params func)) then 0%Z else 100%Z.

Definition score_a (func : SignatureRecord) (hashes : list string) : result float :=
  true_div (10 * count_in hashes (s_cooccurs func)) (Z.of_nat (List.length hashes)).

Definition score_b (func : SignatureRecord) (hashes : list string) : result float :=
  true_div (count_in (s_cooccurs func) hashes)
           (Z.of_nat (List.length (s_cooccurs func))).

Definition match_score (func : SignatureRecord) (hashes : list string)
    : result float :=
  a <- score_a func hashes ;;
  b <- score_b func hashes ;;
  Ok (PrimFloat.add (PrimFloat.add a b) (float_of_int (score_c func))).

End Score.

(** ** [make_abi] *)

Section Builder.

Local Open Scope string_scope.

Variable target : Type.

(** The corpus lookup [fetch_sigs] of [supplement.py], memoised there per
    selector: a function of the selector while the corpus is unchanged. *)
Variable fetch_sigs : string -> list SignatureRecord.

(** [hashlib.sha256(b).hexdigest()] *)
Variable sha256_hexdigest : string -> string.

(** [cache_dir(True)] of [panoramix.utils.helpers], as a path prefix. *)
Variable cache_dir : string.

(** The ABI cache files: path to the JSON document stored there.  A file
    holds [json.dumps(result)] and [json.loads] of it gives the ABI map
    back, so a file is modelled by the map it encodes. *)
Definition CacheFS : Type := list (string * ABIMap target).

Fixpoint read_file (fs : CacheFS) (path : string) : option (ABIMap target) :=
  match fs with
  | [] => None
  | (p, content) :: r => if String.eqb p path then Some content else read_file r path
  end.

Definition write_file (fs : CacheFS) (path : string) (content : ABIMap target)
    : CacheFS :=
  (path, content) :: fs.

(** [sorted(l)] on strings.  The order on [str] is total and antisymmetric,
    so the sorted list is the one any sorting algorithm returns. *)
Fixpoint insert_sorted (x : string) (l : list string) : list string :=
  match l with
  | [] => [x]
  | y :: r => if String.leb x y then x :: l else y :: insert_sorted x r
  end.

Fixpoint sorted (l : list string) : list string :=
  match l with
  | [] => []
  | x :: r => insert_sorted x (sorted r)
  end.

(** [list(hash_targets.keys())] *)
Definition keys (hash_targets : list (string * target)) : list string :=
  map fst hash_targets.

(** [hash_name]: the digest of [str(sorted(list(hash_targets.keys())))]. *)
Definition hash_name (hash_targets : list (string * target)) : string :=
  sha256_hexdigest (PyStr.list_repr (map PyStr.repr (sorted (keys hash_targets)))).

(** [cache_fname = cache_dir / "pabi" / hash_name[:3] / (hash_name + ".pabi")] *)
Definition cache_fname (hash_targets : list (string * target)) : string :=
  let h := hash_name hash_targets in
  cache_dir ++ "/pabi/" ++ String.substring 0 3 h ++ "/" ++ h ++ ".pabi".

(** [h[2:]] *)
Definition drop2 (h : string) : string :=
  String.substring 2 (String.length h - 2) h.

(** The entry a selector starts from. *)
Definition placeholder (h : string) : ABIEntry target :=
  mkEntry (Some ("unknown" ++ drop2 h ++ "()")) None
          (Some ("unknown" ++ drop2 h ++ "(?)")) None None.

(** The entry for a tag that is not a selector. *)
Definition named (h : string) : ABIEntry target :=
  mkEntry (Some h) None (Some h) None None.

(** The entry built from a candidate. *)
Definition adopted (f : SignatureRecord) : ABIEntry target :=
  mkEntry None (Some (s_name f)) (Some (s_folded_name f)) (Some (s_params f)) None.

(** The loop over [sigs].  [best_score] is bound to [0] before the loop and
    is not assigned in it. *)
Fixpoint scan_sigs (hashes : list string) (sigs : list SignatureRecord)
    (res : ABIEntry target) : result (ABIEntry target) :=
  let best_score := 0%float in
  match sigs with
  | [] => Ok res
  | f :: r =>
      score <- Score.match_score f hashes ;;
      scan_sigs hashes r
        (if PrimFloat.ltb best_score score then adopted f else res)
  end.

(** [res["target"] = target] *)
Definition set_target (res : ABIEntry target) (t : target) : ABIEntry target :=
  mkEntry (e_fname res) (e_name res) (e_folded_name res) (e_params res) (Some t).

(** The body of the loop over [hash_targets.items()], up to [res]. *)
Definition resolve_one (hashes : list string) (h : string) (t : target)
    : result (ABIEntry target) :=
  res <- (if negb (PyStr.contains "0x" h) then Ok (named h)
          else
            let sigs := fetch_sigs h in
            if (0 <? List.length sigs)%nat then scan_sigs hashes sigs (placeholder h)
            else Ok (placeholder h)) ;;
  Ok (set_target res t).

(** [result[h] = res] on a dict in insertion order. *)
Fixpoint dict_set (d : ABIMap target) (h : string) (res : ABIEntry target)
    : ABIMap target :=
  match d with
  | [] => [(h, res)]
  | (k, v) :: r =>
      if String.eqb k h then (k, res) :: r else (k, v) :: dict_set r h res
  end.

(** The loop over [hash_targets.items()], filling the dict [result]
    (here [acc]). *)
Fixpoint build (hashes : list string) (items : list (string * target))
    (acc : ABIMap target) : result (ABIMap target) :=
  match items with
  | [] => Ok acc
  | (h, t) :: r =>
      res <- resolve_one hashes h t ;;
      build hashes r (dict_set acc h res)
  end.

(** [make_abi(hash_targets)]: the returned map, [_storage] and the cache
    files after the call. *)
Definition make_abi (hash_targets : list (string * target))
    (st : Storage target) (fs : CacheFS)
    : result (ABIMap target * Storage target * CacheFS) :=
  let fname := cache_fname hash_targets in
  match read_file fs fname with
  | Some abi => Ok (abi, mkStorage (Some abi) (st_func st), fs)
  | None =>
      let hashes := keys hash_targets in
      abi <- build hashes hash_targets [] ;;
      Ok (abi, mkStorage (Some abi) (st_func st), write_file fs fname abi)
  end.

End Builder.

(** ** The corpus files of [supplement.py] *)

Module Supplement.

Local Open Scope string_scope.

(** A row of the table [functions]: the [params] column by the list its
    JSON text parses to, the [cooccurs] column as the stored text. *)
Record Row : Type := mkRow {
  r_hash : string;
  r_name : string;
  r_folded_name : string;
  r_params : list Param;
  r_cooccurs : string
}.

(** What a corpus file holds: a database on which the probe
    [SELECT COUNT(1) FROM functions] succeeds, or bytes on which it raises
    [DatabaseError] or [OperationalError]. *)
Inductive db_file : Type :=
| Database (rows : list Row)
| Damaged.

(** The three files: [cache_dir(False)/supplement.db],
    [data/supplement.db] and [data/supplement.db.xz]. *)
Inductive path : Type :=
| CacheDb
| DataDb
| DataXz.

(** The files present.  The archive is given by what [lzma] decompresses
    it to. *)
Record FS : Type := mkFS {
  cache_db : option db_file;
  data_db : option db_file;
  data_xz : option db_file
}.

Definition read (fs : FS) (p : path) : option db_file :=
  match p with
  | CacheDb => cache_db fs
  | DataDb => data_db fs
  | DataXz => data_xz fs
  end.

Definition write (fs : FS) (p : path) (f : option db_file) : FS :=
  match p with
  | CacheDb => mkFS f (data_db fs) (data_xz fs)
  | DataDb => mkFS (cache_db fs) f (data_xz fs)
  | DataXz => mkFS (cache_db fs) (data_db fs) f
  end.

(** [p.is_file()] *)
Definition is_file (fs : FS) (p : path) : bool :=
  match read fs p with
  | Some _ => true
  | None => false
  end.

(** [os.remove(p)] *)
Definition remove (fs : FS) (p : path) : FS := write fs p None.

Definition decompressed_supplements_path : path := DataDb.

Definition compressed_supplements_path : path := DataXz.

(** [p.is_file] without a call: the bound method, which is truthy whatever
    the files are. *)
Definition is_file_attribute (fs : FS) (p : path) : bool := true.

(** [supplements_path()] tests the attribute, not the call. *)
Definition supplements_path (fs : FS) : path :=
  if is_file_attribute fs decompressed_supplements_path
  then decompressed_supplements_path
  else CacheDb.

(** The probe query of [check_supplements]. *)
Definition probe (f : db_file) : bool :=
  match f with
  | Database _ => true
  | Damaged => false
  end.

(** The body of [check_supplements()] under the lock, once
    [panoramix_supplements] is bound. *)
Definition check_supplements_at (panoramix_supplements : path) (fs : FS)
    : result FS :=
  let fs1 :=
    match read fs panoramix_supplements with
    | Some f => if probe f then fs else remove fs panoramix_supplements
    | None => fs
    end in
  fs2 <- (if negb (is_file fs1 panoramix_supplements) then
            let decompressed_supplements := decompressed_supplements_path in
            if is_file fs1 decompressed_supplements then
              (* shutil.copy *)
              Ok (write fs1 panoramix_supplements (read fs1 decompressed_supplements))
            else
              (* lzma.open, read and write *)
              match read fs1 compressed_supplements_path with
              | Some f => Ok (write fs1 panoramix_supplements (Some f))
              | None => Raise FileNotFoundError
              end
          else Ok fs1) ;;
  if is_file fs2 panoramix_supplements then Ok fs2 else Raise AssertionError.

(** [check_supplements()] *)
Definition check_supplements (fs : FS) : result FS :=
  check_supplements_at (supplements_path fs) fs.

(** [row[4].split(",")] and the other columns of a fetched row. *)
Definition sig_of_row (row : Row) : SignatureRecord :=
  mkSig (r_hash row) (r_name row) (r_folded_name row) (r_params row)
        (PyStr.split "," (r_cooccurs row)).

(** [fetch_sigs(hash)]: [_cursor()] runs [check_supplements()] and opens
    [supplements_path()]; the query selects the rows of that selector. *)
Definition fetch_sigs (fs : FS) (hash : string)
    : result (list SignatureRecord * FS) :=
  fs' <- check_supplements fs ;;
  match read fs' (supplements_path fs') with
  | Some (Database rows) =>
      Ok (map sig_of_row (filter (fun r => String.eqb (r_hash r) hash) rows), fs')
  | _ => Raise DatabaseError
  end.

End Supplement.

(** ** Notions the scorer's properties are stated with *)

Module ScoreAux.

Import PyStr.
Local Open Scope string_scope.

(** [pat] occurs in [s]: [s] is [pat] between two strings. *)
Definition occurs (pat s : string) : Prop :=
  exists pre post, s = pre ++ pat ++ post.

(** The characters of the text [param]. *)
Definition plain (c : ascii) : bool := mem_char c "param".

Fixpoint all_plain (p : string) : bool :=
  match p with
  | EmptyString => true
  | String a p' => plain a && all_plain p'
  end.

(** What [repr_char] gives for a character: itself when it is one of
    [param]'s, and otherwise a block that starts outside [param] and has
    no [p] after its first character. *)
Definition repr_char_ok (q c : ascii) : bool :=
  if plain c then String.eqb (repr_char q c) (String c EmptyString)
  else match repr_char q c with
       | EmptyString => false
       | String h t => negb (plain h) && negb (mem_char "p" t)
       end.

(** The parameter mentions [param] in its type or in its name. *)
Definition mentions_param (p : Param) : bool :=
  contains "param" (p_type p) || contains "param" (p_name p).

(** The size of the intersection of [cooccurs] and [observed], for
    duplicate-free lists. *)
Definition inter_size (cooccurs observed : list string) : Z :=
  Z.of_nat (List.length (filter (fun h => Score.mem h observed) cooccurs)).

(** The sum the scorer computes from an overlap of [k] selectors, in
    binary64: both quotients and both sums are rounded. *)
Definition score_formula (k n_observed n_cooccurs : Z) (c : Z) : float :=
  PrimFloat.add
    (PrimFloat.add
       (PrimFloat.div (Score.float_of_int (10 * k)) (Score.float_of_int n_observed))
       (PrimFloat.div (Score.float_of_int k) (Score.float_of_int n_cooccurs)))
    (Score.float_of_int c).

End ScoreAux.

(** Every candidate of the store has a co-occurrence list with at least one
    element, as the rows split by [fetch_sigs] have. *)
Definition store_well_formed (fetch_sigs : string -> list SignatureRecord) : Prop :=
  forall h f, In f (fetch_sigs h) -> s_cooccurs f <> [].

(** ** Candidates and observations used as examples *)

Section ScoreExamples.

Local Open Scope string_scope.

(** A candidate with cooccurs [{s1, s2, s3}] and named parameters. *)
Definition cand_s123 : SignatureRecord :=
  mkSig "0xa9059cbb" "transfer" "transfer(address,uint256)"
        [mkParam "address" "_to"; mkParam "uint256" "_value"]
        ["s1"; "s2"; "s3"].

Definition observed_s124 : list string := ["s1"; "s2"; "s4"].

(** A candidate whose parameter is named [param1]. *)
Definition cand_param1 : SignatureRecord :=
  mkSig "0x12345678" "f" "f(uint256)" [mkParam "uint256" "param1"] ["0x12345678"].

(** A candidate with no co-occurring selector at all. *)
Definition cand_no_cooccurs : SignatureRecord :=
  mkSig "0x12345678" "f" "f(uint256)" [mkParam "uint256" "_x"] [].

(** A corpus row whose [cooccurs] column is the empty text. *)
Definition row_empty_cooccurs : Supplement.Row :=
  Supplement.mkRow "0x12345678" "f" "f(uint256)" [mkParam "uint256" "_x"] EmptyString.

(** Two candidates for the selector of [transfer(address,uint256)], in the
    order the store returns them. *)
Definition cand_transfer : SignatureRecord :=
  mkSig "0xa9059cbb" "transfer" "transfer(address,uint256)"
        [mkParam "address" "_to"; mkParam "uint256" "_value"]
        ["0xa9059cbb"; "0x70a08231"].

Definition cand_babbage : SignatureRecord :=
  mkSig "0xa9059cbb" "many_msg_babbage" "many_msg_babbage(bytes1)"
        [mkParam "bytes1" "_param1"] ["0xa9059cbb"].

Definition store_transfer (h : string) : list SignatureRecord :=
  if String.eqb h "0xa9059cbb" then [cand_transfer; cand_babbage] else [].

Definition targets_transfer : list (string * nat) :=
  [("0xa9059cbb", 1%nat); ("0x70a08231", 2%nat)].

(** A corpus whose working copy fails the probe, next to its archive. *)
Definition row_transfer : Supplement.Row :=
  Supplement.mkRow "0xa9059cbb" "transfer" "transfer(address,uint256)"
    [mkParam "address" "_to"; mkParam "uint256" "_value"] "0xa9059cbb,0x70a08231".

Definition fs_damaged : Supplement.FS :=
  Supplement.mkFS None (Some Supplement.Damaged)
                  (Some (Supplement.Database [row_transfer])).

Definition fs_healed : Supplement.FS :=
  Supplement.mkFS None (Some (Supplement.Database [row_transfer]))
                  (Some (Supplement.Database [row_transfer])).

(** A digest function and a cache directory for the examples. *)
Definition ex_digest (s : string) : string := s.

(** Three rows of one selector; the second and the third have the longest
    [cooccurs] text. *)
Definition rows_collision : list Supplement.Row :=
  [Supplement.mkRow "0x00000005" "a" "a()" [] "0x00000005";
   Supplement.mkRow "0x00000005" "b" "b()" [] "0x00000005,0x00000006";
   Supplement.mkRow "0x00000007" "d" "d()" [] "0x00000005,0x00000006,0x00000007";
   Supplement.mkRow "0x00000005" "c" "c()" [] "0x00000005,0x00000007"].

Definition fs_collision : Supplement.FS :=
  Supplement.mkFS None (Some (Supplement.Database rows_collision)) None.

(** [int(s, 16)] for the examples, which pass integers. *)
Definition ex_int16 (s : string) : result Z := Raise TypeError.
Definition ex_cache_dir : string := "/cache".

End ScoreExamples.

(** ** The resolver on a concrete function *)

Section ResolverExamples.

Local Open Scope string_scope.
Local Open Scope Z_scope.

(** [transferFrom]-like entry with parameters [_from], [_to]. *)
Definition entry_from_to : ABIEntry unit :=
  mkEntry None (Some "f") (Some "f(address,address)")
          (Some [mkParam "address" "_from"; mkParam "address" "_to"]) (Some tt).

Definition st_from_to : Storage unit :=
  mkStorage (Some [("0x23b872dd", entry_from_to)]) (Some entry_from_to).

(** An entry whose only parameter is the array [arr]. *)
Definition entry_arr : ABIEntry unit :=
  mkEntry None (Some "g") (Some "g(uint256[])")
          (Some [mkParam "uint256[]" "arr"]) (Some tt).

Definition st_arr : Storage unit :=
  mkStorage (Some [("0x00000001", entry_arr)]) (Some entry_arr).

(** Colour codes and a clean-up for expressions without a product by one. *)
Definition ex_green : string := "<green>".
Definition ex_endc : string := "<end>".
Definition ex_cleanup (e : expr) : expr := e.


End ResolverExamples.

(** ** The accessors of [signatures.py] over a shared ABI *)

(** [set_func] binds [_storage.func] to the entry object held by
    [_storage.abi], and [set_func_params_if_none] writes into that object:
    the entries live in a heap and the ABI and [_storage.func] refer to
    them by location. *)
Module Api.

Local Open Scope string_scope.

(** The exceptions above, and the [KeyError] of a dict subscript. *)
Inductive error : Type :=
| KeyError
| Builtin (e : exn).

Inductive outcome (A : Type) : Type :=
| Return (a : A)
| Throw (e : error).

Arguments Return {A} a.
Arguments Throw {A} e.

Definition obind {A B : Type} (m : outcome A) (k : A -> outcome B) : outcome B :=
  match m with
  | Return a => k a
  | Throw e => Throw e
  end.

Notation "x <~ m ;; k" := (obind m (fun x => k))
  (at level 61, m at next level, right associativity).

Definition lift {A : Type} (m : result A) : outcome A :=
  match m with
  | Ok a => Return a
  | Raise e => Throw (Builtin e)
  end.

(** [s[-1]]: the last character, if there is one. *)
Fixpoint str_last (s : string) : option ascii :=
  match s with
  | EmptyString => None
  | String c EmptyString => Some c
  | String _ s' => str_last s'
  end.

(** [s[:-1]] *)
Fixpoint str_init (s : string) : string :=
  match s with
  | EmptyString => EmptyString
  | String c EmptyString => EmptyString
  | String c s' => String c (str_init s')
  end.

Section Accessors.

Variable target : Type.
Variables COLOR_GREEN ENDC : string.

(** The entry objects, the dict [_storage.abi] from selector to entry
    object, and the entry object [_storage.func]. *)
Record PyState : Type := mkPyState {
  heap : list (ABIEntry target);
  abi_ref : option (list (string * nat));
  func_ref : option nat
}.

(** [d[h]] on a dict in insertion order. *)
Fixpoint dict_get {V : Type} (d : list (string * V)) (h : string) : option V :=
  match d with
  | [] => None
  | (k, v) :: r => if String.eqb k h then Some v else dict_get r h
  end.

Definition deref (s : PyState) (loc : nat) : option (ABIEntry target) :=
  nth_error (heap s) loc.

(** Writing into the entry object at [loc]. *)
Fixpoint heap_set (hp : list (ABIEntry target)) (loc : nat) (e : ABIEntry target)
    : list (ABIEntry target) :=
  match hp, loc with
  | [], _ => []
  | _ :: r, O => e :: r
  | x :: r, S n => x :: heap_set r n e
  end.

(** [_storage.abi = abi] for a freshly built or loaded map: its entries are
    new objects. *)
Fixpoint alloc (abi : ABIMap target) (base : nat) : list (string * nat) :=
  match abi with
  | [] => []
  | (h, _) :: r => (h, base) :: alloc r (S base)
  end.

Definition install (abi : ABIMap target) (s : PyState) : PyState :=
  mkPyState (heap s ++ map snd abi)%list
            (Some (alloc abi (List.length (heap s))))
            (func_ref s).

(** The ABI as a map of entries, and [_storage] as [get_param_name] reads
    it. *)
Definition abi_entries (s : PyState) (d : list (string * nat)) : ABIMap target :=
  flat_map (fun kv => match deref s (snd kv) with
                      | Some e => [(fst kv, e)]
                      | None => []
                      end) d.

Definition storage_of (s : PyState) : Storage target :=
  mkStorage (option_map (abi_entries s) (abi_ref s))
            (match func_ref s with
             | Some loc => deref s loc
             | None => None
             end).

(** [_storage.abi[hash]] *)
Definition abi_entry (s : PyState) (hash : string) : outcome nat :=
  match abi_ref s with
  | None => Throw (Builtin TypeError)
  | Some d =>
      match dict_get d hash with
      | Some loc => Return loc
      | None => Throw KeyError
      end
  end.

Definition entry_at (s : PyState) (loc : nat) : outcome (ABIEntry target) :=
  match deref s loc with
  | Some e => Return e
  | None => Throw (Builtin AssertionError)
  end.

(** [set_func(hash)] *)
Definition set_func (s : PyState) (hash : string) : outcome PyState :=
  match abi_ref s with
  | None => Throw (Builtin AssertionError)
  | Some _ =>
      loc <~ abi_entry s hash ;;
      Return (mkPyState (heap s) (abi_ref s) (Some loc))
  end.

(** [set_func_params_if_none(params)]: [params.values()] as the list of
    its [(type, name)] pairs. *)
Definition set_func_params_if_none (s : PyState) (params : list (string * string))
    : outcome PyState :=
  match func_ref s with
  | None => Throw (Builtin TypeError)
  | Some loc =>
      func <~ entry_at s loc ;;
      match e_params func with
      | Some _ => Return s
      | None =>
          let res := map (fun tn => mkParam (fst tn) (snd tn)) params in
          let func' := mkEntry (e_fname func) (e_name func) (e_folded_name func)
                               (Some res) (e_target func) in
          Return (mkPyState (heap_set (heap s) loc func') (abi_ref s) (func_ref s))
      end
  end.

(** [a[key]] for a key the entry may lack. *)
Definition field {A : Type} (v : option A) : outcome A :=
  match v with
  | Some a => Return a
  | None => Throw KeyError
  end.

(** [get_abi_name(hash)]: [None] is Python's [None]. *)
Definition get_abi_name (s : PyState) (hash : string) : outcome (option string) :=
  loc <~ abi_entry s hash ;;
  a <~ entry_at s loc ;;
  match e_params a with
  | Some params =>
      name <~ field (e_name a) ;;
      Return (Some (name ++ "(" ++ PyStr.join "," (map p_type params) ++ ")"))
  | None => Return None
  end.

(** [get_func_params(hash)] *)
Definition get_func_params (s : PyState) (hash : string) : outcome (list Param) :=
  loc <~ abi_entry s hash ;;
  a <~ entry_at s loc ;;
  match e_params a with
  | Some params => Return params
  | None => Return []
  end.

(** [x["name"][:-1] if x["name"][-1] == "_" else x["name"]] *)
Definition strip_underscore (name : string) : outcome string :=
  match str_last name with
  | None => Throw (Builtin IndexError)
  | Some c => Return (if Ascii.eqb c "_" then str_init name else name)
  end.

(** The list comprehension of [get_func_name]. *)
Fixpoint render_params (params : list Param) (add_color : bool)
    : outcome (list string) :=
  match params with
  | [] => Return []
  | x :: r =>
      n <~ strip_underscore (p_name x) ;;
      rest <~ render_params r add_color ;;
      Return ((p_type x ++ " " ++ colorize ENDC n COLOR_GREEN add_color) :: rest)
  end.

(** [get_func_name(hash, add_color)] *)
Definition get_func_name (s : PyState) (hash : string) (add_color : bool)
    : outcome string :=
  loc <~ abi_entry s hash ;;
  a <~ entry_at s loc ;;
  match e_params a with
  | Some params =>
      name <~ field (e_name a) ;;
      items <~ render_params params add_color ;;
      Return (name ++ "(" ++ PyStr.join ", " items ++ ")")
  | None => field (e_folded_name a)
  end.

End Accessors.

End Api.

(** ** The rest of [supplement.py] *)

Module Corpus.

Import Supplement.
Local Open Scope string_scope.

(** [decompress_supplements()], under the lock.  A cursor opened on a path
    without a file creates an empty database, on which the probe raises and
    which is removed again: the files are as before. *)
Definition decompress_supplements (fs : FS) : result FS :=
  let compressed := compressed_supplements_path in
  let decompressed := decompressed_supplements_path in
  fs1 <- (if negb (is_file fs decompressed) then
            match read fs compressed with
            | Some f => Ok (write fs decompressed (Some f))
            | None => Raise FileNotFoundError
            end
          else Ok fs) ;;
  match read fs1 decompressed with
  | Some f => if probe f then Ok fs1 else Ok (remove fs1 decompressed)
  | None => Ok fs1
  end.

(** The candidates of a selector over given files, for a caller that does
    not follow the files: nothing when the lookup raises. *)
Definition store_of (fs : FS) (hash : string) : list SignatureRecord :=
  match fetch_sigs fs hash with
  | Ok (sigs, _) => sigs
  | Raise _ => []
  end.

(** The argument of [fetch_sig]: an [int] or a [str]. *)
Inductive hash_arg : Type :=
| HashInt (z : Z)
| HashStr (s : string).

(** What [fetch_sig] returns: the keys ["hash"], ["name"], ["folded_name"]
    and ["params"]. *)
Record SigInfo : Type := mkSigInfo {
  i_hash : string;
  i_name : string;
  i_folded_name : string;
  i_params : list Param
}.

(** The hexadecimal digits of a natural number, lowercase. *)
Definition hex_digits (n : N) : string :=
  match n with
  | N0 => "0"
  | Npos p => HexString.Raw.of_pos p EmptyString
  end.

Fixpoint zeros (n : nat) : string :=
  match n with
  | O => EmptyString
  | S m => String "0" (zeros m)
  end.

(** ["{:#010x}".format(z)]: sign, [0x], and zeros up to a width of ten. *)
Definition format_hash (z : Z) : string :=
  let digits := hex_digits (Z.abs_N z) in
  let prefix := if Z.ltb z 0 then "-0x" else "0x" in
  prefix ++ zeros (10 - String.length prefix - String.length digits) ++ digits.

(** [len(row[4])] *)
Definition clen (r : Row) : nat := String.length (r_cooccurs r).

(** [max(results, key=lambda row: len(row[4]))] from the first row on: a
    later row replaces the best one only when its key is greater. *)
Fixpoint max_by_cooccurs (best : Row) (rest : list Row) : Row :=
  match rest with
  | [] => best
  | r :: rest' =>
      max_by_cooccurs
        (if Nat.ltb (String.length (r_cooccurs best)) (String.length (r_cooccurs r))
         then r else best)
        rest'
  end.

Section FetchSig.

(** [int(s, 16)] of Python. *)
Variable int16 : string -> result Z.

(** [fetch_sig(hash)]: [None] of Python is [None]. *)
Definition fetch_sig (fs : FS) (hash : hash_arg)
    : result (option SigInfo * FS) :=
  z <- (match hash with
        | HashStr s => int16 s
        | HashInt z => Ok z
        end) ;;
  let hash' := format_hash z in
  fs' <- check_supplements fs ;;
  match read fs' (supplements_path fs') with
  | Some (Database rows) =>
      match filter (fun r => String.eqb (r_hash r) hash') rows with
      | [] => Ok (None, fs')
      | first :: others =>
          let row := max_by_cooccurs first others in
          Ok (Some (mkSigInfo hash' (r_name row) (r_folded_name row) (r_params row)),
              fs')
      end
  | _ => Raise DatabaseError
  end.

End FetchSig.

End Corpus.

(** ** The parser of the ABI crawler *)

Module Crawler.

Import Api.
Local Open Scope string_scope.

(** An element of [func["inputs"]]: its ["type"], its ["name"] and, when
    the key is there, its ["components"]. *)
Inductive abi_input : Type :=
| AbiInput (type_ name_ : string) (components : option (list abi_input)).

Definition input_type (r : abi_input) : string :=
  match r with AbiInput t _ _ => t end.

Definition input_name (r : abi_input) : string :=
  match r with AbiInput _ n _ => n end.

(** [s[5:]] *)
Definition drop5 (s : string) : string :=
  String.substring 5 (String.length s - 5) s.

(** The name given to a parameter: [param] and the counter for an empty
    name, and an underscore in front unless there is one. *)
Definition param_name (name_ : string) (param_counter : Z) : string :=
  let name1 :=
    if Nat.eqb (String.length name_) 0 then "param" ++ PyStr.of_int param_counter
    else name_ in
  match name1 with
  | String c _ => if Ascii.eqb c "_" then name1 else "_" ++ name1
  | EmptyString => name1
  end.

(** One round of the loop of [parse_inputs], for the element [r] and the
    counter already increased: the text appended to [inputs] and the entry
    appended to [params].  The inner loop is the call of [parse_inputs] on
    the components, of which the first result is kept. *)
Fixpoint parse_item (r : abi_input) (param_counter : Z)
    : outcome (string * Param) :=
  match r with
  | AbiInput type_ name_ components =>
      let p := mkParam type_ (param_name name_ param_counter) in
      if negb (PyStr.contains "tuple" type_) then Return (type_, p)
      else
        match components with
        | None => Throw KeyError
        | Some cs =>
            let fix loop (cs : list abi_input) (counter : Z)
                : outcome (list string * list Param) :=
              match cs with
              | [] => Return ([], [])
              | c :: rest =>
                  tp <~ parse_item c (counter + 1)%Z ;;
                  more <~ loop rest (counter + 1)%Z ;;
                  Return (fst tp :: fst more, snd tp :: snd more)
              end in
            inner <~ loop cs 0%Z ;;
            Return ("(" ++ PyStr.join "," (fst inner) ++ ")" ++ drop5 type_, p)
        end
  end.

(** The loop of [parse_inputs] over [func_inputs]. *)
Fixpoint parse_loop (func_inputs : list abi_input) (counter : Z)
    : outcome (list string * list Param) :=
  match func_inputs with
  | [] => Return ([], [])
  | r :: rest =>
      tp <~ parse_item r (counter + 1)%Z ;;
      more <~ parse_loop rest (counter + 1)%Z ;;
      Return (fst tp :: fst more, snd tp :: snd more)
  end.

(** [parse_inputs(func_inputs)] *)
Definition parse_inputs (func_inputs : list abi_input)
    : outcome (string * list Param) :=
  r <~ parse_loop func_inputs 0%Z ;;
  Return (PyStr.join "," (fst r), snd r).

(** The parameters the loop appends for the inputs, the counter starting
    after [counter]. *)
Fixpoint named_params (func_inputs : list abi_input) (counter : Z) : list Param :=
  match func_inputs with
  | [] => []
  | r :: rest =>
      mkParam (input_type r) (param_name (input_name r) (counter + 1)%Z)
        :: named_params rest (counter + 1)%Z
  end.

(** No input has a tuple type, at any depth reached. *)
Definition flat (func_inputs : list abi_input) : Prop :=
  forall r, In r func_inputs -> PyStr.contains "tuple" (input_type r) = false.

End Crawler.

(** ** Runs and states used as examples *)

Section MoreExamples.

Local Open Scope string_scope.

(** Two selectors and the fallback tag; the store knows the first
    selector only. *)
Definition targets_mixed : list (string * nat) :=
  [("0xa9059cbb", 1%nat); ("_fallback", 2%nat); ("0x70a08231", 3%nat)].

Definition abi_mixed : ABIMap nat :=
  Eval vm_compute in
    match make_abi store_transfer ex_digest ex_cache_dir targets_mixed
                   (mkStorage None None) [] with
    | Ok (abi, _, _) => abi
    | Raise _ => []
    end.

Definition state_mixed : Api.PyState nat :=
  Api.install abi_mixed (Api.mkPyState [] None None).

(** The entry filed for the selector the store knows. *)
Definition entry_babbage : ABIEntry nat :=
  set_target (adopted nat cand_babbage) 1%nat.

(** [state_mixed] with the entry of the unknown selector bound as the
    current function. *)
Definition state_bound : Api.PyState nat :=
  Api.mkPyState (Api.heap state_mixed) (Api.abi_ref state_mixed) (Some 2%nat).

(** The entry filed for the selector the store does not know. *)
Definition entry_unknown : ABIEntry nat :=
  mkEntry (Some "unknown70a08231()") None (Some "unknown70a08231(?)") None
          (Some 3%nat).

(** An entry whose parameter names end in an underscore, and one with a
    parameter without a name. *)
Definition abi_rendered : ABIMap nat :=
  [("0x00000001",
    mkEntry None (Some "pay") (Some "pay(address,uint256)")
            (Some [mkParam "address" "to_"; mkParam "uint256" "amount_"])
            (Some 1%nat));
   ("0x00000002",
    mkEntry None (Some "g") (Some "g(uint256)")
            (Some [mkParam "uint256" EmptyString]) (Some 2%nat));
   ("0x00000003",
    mkEntry None (Some "h") (Some "h(address,uint8)")
            (Some [mkParam "address" "_owner"; mkParam "uint8" "_v"])
            (Some 3%nat))].

Definition state_rendered : Api.PyState nat :=
  Api.install abi_rendered (Api.mkPyState [] None None).

(** Corpus files without an archive, and with an archive that is no
    database. *)
Definition fs_no_archive : Supplement.FS :=
  Supplement.mkFS None (Some Supplement.Damaged) None.

Definition fs_bad_archive : Supplement.FS :=
  Supplement.mkFS None None (Some Supplement.Damaged).

(** Inputs of a crawled function: the first one has no name. *)
Definition inputs_unnamed : list Crawler.abi_input :=
  [Crawler.AbiInput "address" EmptyString None;
   Crawler.AbiInput "uint256" "value" None].

Definition inputs_owner : list Crawler.abi_input :=
  [Crawler.AbiInput "address" "_owner" None;
   Crawler.AbiInput "uint8" "v" None].

End MoreExamples.

(** * Properties of the parameter name resolver *)

Section ResolverFacts.

Local Open Scope string_scope.
Local Open Scope Z_scope.

Variable target : Type.
Variables GREEN ENDC : string.
Variable cleanup : expr -> expr.

Local Abbreviation resolve := (@get_param_name target GREEN ENDC cleanup).
Local Abbreviation resolve_at := (@get_param_name_at target GREEN ENDC cleanup).


Lemma match_cd_read (loc : expr) : match_cd (cd_read loc) = Some loc.
Proof. reflexivity. Qed.

Lemma resolve_read (st : Storage target) (loc : expr) (c : bool) :
  resolve st (cd_read loc) c = resolve_at st loc c.
Proof. reflexivity. Qed.


(** An integer offset, with the storage active. *)
Lemma resolve_at_int (st : Storage target) (params : list Param) (n : Z) (c : bool) :
  active st params ->
  resolve_at st (EInt n) c =
    if negb ((n - 4) mod 32 =? 0) then Ok (cd_read (EInt n))
    else if Z.of_nat (List.length params) <=? (n - 4) / 32 then Ok (cd_read (EInt n))
    else p <- py_index params ((n - 4) / 32) ;;
         Ok (EStr (colorize ENDC (p_name p) GREEN c)).
Proof.
  intros (abi & func & Ha & Hf & Hp). simpl. rewrite Ha, Hf, Hp. reflexivity.
Qed.

Lemma py_index_nth {A : Type} (l : list A) (i : nat) (a : A) :
  nth_error l i = Some a -> py_index l (Z.of_nat i) = Ok a.
Proof.
  intros H. unfold py_index.
  assert (Hlt : (i < List.length l)%nat) by (apply nth_error_Some; congruence).
  destruct (Z.ltb_spec (Z.of_nat i) 0) as [Hneg | _]; [lia |].
  destruct (Z.ltb_spec (Z.of_nat i) 0) as [Hneg | _]; [lia |].
  destruct (Z.leb_spec (Z.of_nat (List.length l)) (Z.of_nat i)) as [Hge | _]; [lia |].
  simpl. rewrite Nat2Z.id, H. reflexivity.
Qed.

(** C2: a direct read at an aligned integer offset whose index
    [(offset - 4) / 32] is at or beyond the length of the current
    function's parameter list is returned unchanged; nothing is raised. *)
Theorem get_param_name_index_beyond_params
    (st : Storage target) (params : list Param) (offset : Z) (add_color : bool) :
  active st params ->
  (offset - 4) mod 32 = 0 ->
  Z.of_nat (List.length params) <= (offset - 4) / 32 ->
  resolve st (cd_read (EInt offset)) add_color = Ok (cd_read (EInt offset)).
Proof.
  intros Hact Hmod Hlen.
  rewrite resolve_read, (resolve_at_int _ _ Hact), Hmod. simpl.
  destruct (Z.leb_spec (Z.of_nat (List.length params)) ((offset - 4) / 32)); [reflexivity | lia].
Qed.

(** C6: with a parameter list bound, a direct read at an integer offset is
    returned unchanged when [(offset - 4) mod 32] is not zero, and
    otherwise resolves to the name of the parameter at index
    [(offset - 4) / 32] when the list has one there (in colour when colour
    is asked for). *)
Theorem get_param_name_direct_read
    (st : Storage target) (params : list Param) (offset : Z) (add_color : bool) :
  active st params ->
  ((offset - 4) mod 32 <> 0 ->
   resolve st (cd_read (EInt offset)) add_color = Ok (cd_read (EInt offset))) /\
  (forall (i : nat) (p : Param),
     (offset - 4) mod 32 = 0 ->
     (offset - 4) / 32 = Z.of_nat i ->
     nth_error params i = Some p ->
     resolve st (cd_read (EInt offset)) add_color =
       Ok (EStr (if add_color then GREEN ++ p_name p ++ ENDC else p_name p))).
Proof.
  intros Hact. split.
  - intros Hmod. rewrite resolve_read, (resolve_at_int _ _ Hact).
    destruct (Z.eqb_spec ((offset - 4) mod 32) 0); [contradiction | reflexivity].
  - intros i p Hmod Hidx Hnth.
    rewrite resolve_read, (resolve_at_int _ _ Hact), Hmod, Hidx. simpl.
    assert (Hlt : (i < List.length params)%nat) by (apply nth_error_Some; congruence).
    destruct (Z.leb_spec (Z.of_nat (List.length params)) (Z.of_nat i)); [lia |].
    rewrite (py_index_nth _ _ Hnth). reflexivity.
Qed.


(** The offset shapes, with the storage active. *)
Lemma resolve_at_add_param (st : Storage target) (params : list Param)
    (p : string) (c : bool) :
  active st params ->
  resolve_at st (add_param 4 (EStr p)) c =
    Ok (EStr (colorize ENDC (p ++ ".length") GREEN c)).
Proof.
  intros (abi & func & Ha & Hf & Hp). simpl. rewrite Ha, Hf, Hp. reflexivity.
Qed.

Lemma resolve_at_add_cd_4 (st : Storage target) (params : list Param)
    (inner : expr) (c : bool) :
  active st params ->
  resolve_at st (add_cd 4 inner) c =
    (r <- resolve_at st inner false ;;
     Ok (EStr (colorize ENDC (Expr.str r ++ ".length") GREEN c))).
Proof.
  intros (abi & func & Ha & Hf & Hp). simpl. rewrite Ha, Hf, Hp. reflexivity.
Qed.

Lemma resolve_at_add_cd_k (st : Storage target) (params : list Param)
    (k : Z) (inner : expr) (c : bool) :
  active st params ->
  k <> 4 ->
  resolve_at st (add_cd k inner) c =
    (r <- resolve_at st inner false ;;
     Ok (EStr (colorize ENDC
                 (Expr.str r ++ "[" ++ PyStr.of_int ((k - 36) / 32) ++ "]")
                 GREEN c))).
Proof.
  intros (abi & func & Ha & Hf & Hp) Hk. simpl. rewrite Ha, Hf, Hp.
  destruct (Z.eqb_spec k 4) as [E | _]; [contradiction | reflexivity].
Qed.

(** C7: with a parameter list bound, the offset shapes are matched in
    order: [("add", 4, ("param", p))] gives [p.length];
    [("add", 4, ("cd", inner))] resolves [("cd", inner)] and appends
    [.length]; [("add", k, ("cd", inner))] for any other integer [k]
    resolves [("cd", inner)] and appends the index [(k - 36) // 32] in
    brackets, so that [k = 68] over an inner read resolving to [arr]
    gives [arr[1]]. *)
Theorem get_param_name_offset_shapes
    (st : Storage target) (params : list Param) (add_color : bool) :
  active st params ->
  (forall p : string,
     resolve st (cd_read (add_param 4 (EStr p))) add_color =
       Ok (EStr (colorize ENDC (p ++ ".length") GREEN add_color))) /\
  (forall inner : expr,
     resolve st (cd_read (add_cd 4 inner)) add_color =
       (r <- resolve st (cd_read inner) false ;;
        Ok (EStr (colorize ENDC (Expr.str r ++ ".length") GREEN add_color)))) /\
  (forall (k : Z) (inner : expr),
     k <> 4 ->
     resolve st (cd_read (add_cd k inner)) add_color =
       (r <- resolve st (cd_read inner) false ;;
        Ok (EStr (colorize ENDC
                    (Expr.str r ++ "[" ++ PyStr.of_int ((k - 36) / 32) ++ "]")
                    GREEN add_color)))) /\
  (forall inner : expr,
     resolve st (cd_read inner) false = Ok (EStr "arr") ->
     resolve st (cd_read (add_cd 68 inner)) false = Ok (EStr "arr[1]")).
Proof.
  intros Hact. repeat split.
  - intros p. rewrite resolve_read. apply (resolve_at_add_param _ _ Hact).
  - intros inner. rewrite !resolve_read. apply (resolve_at_add_cd_4 _ _ Hact).
  - intros k inner Hk. rewrite !resolve_read. now apply (resolve_at_add_cd_k _ _ Hact).
  - intros inner Hin. rewrite resolve_read in *.
    rewrite (resolve_at_add_cd_k _ _ Hact) by discriminate.
    rewrite Hin. reflexivity.
Qed.

End ResolverFacts.

Section ResolverWitnesses.

Local Open Scope string_scope.
Local Open Scope Z_scope.

Local Abbreviation resolve0 := (get_param_name ex_green ex_endc ex_cleanup).

Lemma active_from_to :
  active st_from_to [mkParam "address" "_from"; mkParam "address" "_to"].
Proof. exists [("0x23b872dd", entry_from_to)], entry_from_to. repeat split. Defined.

Lemma active_arr : active st_arr [mkParam "uint256[]" "arr"].
Proof. exists [("0x00000001", entry_arr)], entry_arr. repeat split. Defined.

(** Offset 68 is index 2 of a two-parameter function. *)
Lemma get_param_name_index_beyond_params_witness :
  resolve0 st_from_to (cd_read (EInt 68)) false = Ok (cd_read (EInt 68)).
Proof.
  apply (get_param_name_index_beyond_params ex_green ex_endc ex_cleanup
           (st := st_from_to)
           (params := [mkParam "address" "_from"; mkParam "address" "_to"])).
  - exact active_from_to.
  - reflexivity.
  - vm_compute. discriminate.
Defined.

(** Offset 37 is returned as it is; offset 36 is [_to]. *)
Lemma get_param_name_direct_read_witness :
  resolve0 st_from_to (cd_read (EInt 37)) false = Ok (cd_read (EInt 37)) /\
  resolve0 st_from_to (cd_read (EInt 36)) false = Ok (EStr "_to").
Proof.
  split.
  - apply (proj1 (get_param_name_direct_read ex_green ex_endc ex_cleanup
                    37 false active_from_to)).
    vm_compute. discriminate.
  - apply (proj2 (get_param_name_direct_read ex_green ex_endc ex_cleanup
                    36 false active_from_to) 1%nat (mkParam "address" "_to"));
      reflexivity.
Defined.

(** The element at offset 68 behind the array pointer read at offset 4. *)
Lemma get_param_name_offset_shapes_witness :
  resolve0 st_arr (cd_read (add_cd 68 (EInt 4))) false = Ok (EStr "arr[1]").
Proof.
  apply (proj2 (proj2 (proj2
           (get_param_name_offset_shapes ex_green ex_endc ex_cleanup false active_arr)))).
  reflexivity.
Defined.


End ResolverWitnesses.

(** * Properties of the string operations *)

Module PyStrFacts.

Import PyStr.
Local Open Scope string_scope.

Lemma append_assoc (x y z : string) : (x ++ y) ++ z = x ++ (y ++ z).
Proof. induction x as [| c x IH]; simpl; [reflexivity | now rewrite IH]. Qed.

Lemma append_nil_r (x : string) : x ++ EmptyString = x.
Proof. induction x as [| c x IH]; simpl; [reflexivity | now rewrite IH]. Qed.

Lemma prefix_nil (s : string) : String.prefix EmptyString s = true.
Proof. destruct s; reflexivity. Qed.

Lemma prefix_cons (a b : ascii) (p s : string) :
  String.prefix (String a p) (String b s) = Ascii.eqb a b && String.prefix p s.
Proof.
  simpl. destruct (ascii_dec a b) as [-> | Hne].
  - now rewrite Ascii.eqb_refl.
  - apply Ascii.eqb_neq in Hne. now rewrite Hne.
Qed.

Lemma prefix_cons_nil (a : ascii) (p : string) :
  String.prefix (String a p) EmptyString = false.
Proof. reflexivity. Qed.

Lemma contains_cons (pat : string) (c : ascii) (s : string) :
  contains pat (String c s) = String.prefix pat (String c s) || contains pat s.
Proof. reflexivity. Qed.

Lemma contains_nil (a : ascii) (p : string) :
  contains (String a p) EmptyString = false.
Proof. reflexivity. Qed.

(** [sub in s] holds exactly when [s] is [sub] between two strings. *)
Lemma prefix_split (pat s : string) :
  String.prefix pat s = true <-> exists post, s = pat ++ post.
Proof.
  revert pat. induction s as [| b s IH]; intros [| a p].
  - split; [exists EmptyString; reflexivity | reflexivity].
  - split; [discriminate | intros [post H]; discriminate].
  - split; [exists (String b s); reflexivity | reflexivity].
  - rewrite prefix_cons, andb_true_iff, IH. split.
    + intros [E [post ->]]. apply Ascii.eqb_eq in E as ->. now exists post.
    + intros [post H]. simpl in H. injection H as -> ->.
      split; [apply Ascii.eqb_refl | now exists post].
Qed.

Lemma contains_split (pat s : string) :
  contains pat s = true <-> exists pre post, s = pre ++ pat ++ post.
Proof.
  induction s as [| b s IH].
  - change (contains pat EmptyString) with (String.prefix pat EmptyString || false).
    rewrite orb_false_r, prefix_split. split.
    + intros [post H]. now exists EmptyString, post.
    + intros (pre & post & H). destruct pre; simpl in H; [now exists post | discriminate].
  - rewrite contains_cons, orb_true_iff, IH, prefix_split. split.
    + intros [[post H] | (pre & post & H)].
      * now exists EmptyString, post.
      * exists (String b pre), post. simpl. now rewrite H.
    + intros (pre & post & H). destruct pre as [| c pre]; simpl in H.
      * left. now exists post.
      * right. injection H as _ ->. now exists pre, post.
Qed.

(** A character outside the pattern cuts every occurrence. *)
Lemma prefix_app_break (pat x y : string) (c : ascii) :
  mem_char c pat = false ->
  String.prefix pat (x ++ String c y) = String.prefix pat x.
Proof.
  revert pat. induction x as [| d x IH]; intros [| a p] Hc; try reflexivity.
  - simpl in Hc. apply orb_false_elim in Hc as [Hca _].
    simpl append. rewrite prefix_cons, Ascii.eqb_sym, Hca. reflexivity.
  - simpl in Hc. apply orb_false_elim in Hc as [_ Hcp].
    simpl append. rewrite !prefix_cons, (IH p Hcp). reflexivity.
Qed.

Lemma contains_app_break (a : ascii) (p x y : string) (c : ascii) :
  mem_char c (String a p) = false ->
  contains (String a p) (x ++ String c y)
  = contains (String a p) x || contains (String a p) y.
Proof.
  intros Hc. induction x as [| d x IH].
  - simpl append. rewrite contains_cons.
    change (String c y) with (EmptyString ++ String c y) at 1.
    rewrite prefix_app_break by exact Hc. reflexivity.
  - simpl append. rewrite !contains_cons, IH.
    change (String d (x ++ String c y)) with (String d x ++ String c y).
    rewrite prefix_app_break by exact Hc. now rewrite orb_assoc.
Qed.

(** A block without the pattern's first character holds no start of an
    occurrence. *)
Lemma contains_skip (a : ascii) (p t z : string) :
  mem_char a t = false ->
  contains (String a p) (t ++ z) = contains (String a p) z.
Proof.
  induction t as [| d t IH]; intros Ha; [reflexivity |].
  simpl in Ha. apply orb_false_elim in Ha as [Had Hat].
  simpl append. rewrite contains_cons, prefix_cons, Had. simpl. now apply IH.
Qed.

End PyStrFacts.

(** * Properties of the scorer *)

Module ScoreFacts.

Import PyStr PyStrFacts Score ScoreAux.
Local Open Scope string_scope.

Lemma repr_char_ok_all (q c : ascii) :
  q = squote \/ q = dquote -> repr_char_ok q c = true.
Proof.
  intros [-> | ->]; destruct c as [[] [] [] [] [] [] [] []]; vm_compute; reflexivity.
Qed.

Lemma quote_of_cases (s : string) : quote_of s = squote \/ quote_of s = dquote.
Proof.
  unfold quote_of. destruct (mem_char squote s && negb (mem_char dquote s)); auto.
Qed.

Lemma quote_not_plain (q : ascii) :
  q = squote \/ q = dquote -> mem_char q "param" = false.
Proof. intros [-> | ->]; reflexivity. Qed.

Lemma prefix_escape (q : ascii) (s p : string) :
  q = squote \/ q = dquote ->
  all_plain p = true ->
  String.prefix p (escape q s) = String.prefix p s.
Proof.
  intros Hq. revert p. induction s as [| c s IH]; intros [| a p] Hp;
    try reflexivity; [now rewrite !prefix_nil |].
  simpl in Hp. apply andb_true_iff in Hp as [Ha Hp].
  pose proof (repr_char_ok_all c Hq) as Hc. unfold repr_char_ok in Hc.
  simpl escape. destruct (plain c) eqn:Ec.
  - apply String.eqb_eq in Hc. rewrite Hc. simpl append.
    rewrite !prefix_cons, (IH p Hp). reflexivity.
  - destruct (repr_char q c) as [| h t]; [discriminate |].
    apply andb_true_iff in Hc as [Hh _]. apply negb_true_iff in Hh.
    simpl append. rewrite !prefix_cons.
    destruct (Ascii.eqb_spec a h) as [-> | _]; [congruence |].
    destruct (Ascii.eqb_spec a c) as [-> | _]; [congruence | reflexivity].
Qed.

Lemma contains_escape (q : ascii) (s : string) :
  q = squote \/ q = dquote ->
  contains "param" (escape q s) = contains "param" s.
Proof.
  intros Hq. induction s as [| c s IH]; [reflexivity |].
  pose proof (repr_char_ok_all c Hq) as Hc. unfold repr_char_ok in Hc.
  change (escape q (String c s)) with (repr_char q c ++ escape q s).
  destruct (plain c) eqn:Ec.
  - apply String.eqb_eq in Hc. rewrite Hc. simpl append.
    rewrite !contains_cons, IH, !prefix_cons.
    rewrite (prefix_escape s "aram" Hq) by reflexivity. reflexivity.
  - destruct (repr_char q c) as [| h t]; [discriminate |].
    apply andb_true_iff in Hc as [Hh Ht].
    apply negb_true_iff in Hh. apply negb_true_iff in Ht.
    simpl append. rewrite !contains_cons, !prefix_cons.
    rewrite contains_skip by exact Ht. rewrite IH.
    assert (Hph : Ascii.eqb "p" h = false).
    { destruct (Ascii.eqb_spec "p"%char h) as [<- | _]; [discriminate | reflexivity]. }
    assert (Hpc : Ascii.eqb "p" c = false).
    { destruct (Ascii.eqb_spec "p"%char c) as [<- | _]; [discriminate | reflexivity]. }
    now rewrite Hph, Hpc.
Qed.

Lemma contains_break_head (c : ascii) (x : string) :
  mem_char c "param" = false ->
  contains "param" (String c x) = contains "param" x.
Proof.
  intros Hc. change (String c x) with (EmptyString ++ String c x).
  now rewrite contains_app_break.
Qed.

(** An occurrence of [param] in [repr(s)] followed by more text lies in [s]
    or in that text. *)
Lemma contains_repr_app (s rest : string) :
  contains "param" (repr s ++ rest) = contains "param" s || contains "param" rest.
Proof.
  unfold repr. pose proof (quote_of_cases s) as Hq.
  set (q := quote_of s) in *.
  simpl append. rewrite append_assoc. simpl append.
  rewrite contains_break_head by exact (quote_not_plain Hq).
  rewrite contains_app_break by exact (quote_not_plain Hq).
  now rewrite contains_escape by exact Hq.
Qed.

(** A literal without [param] that ends outside [param] adds nothing. *)
Lemma contains_strip (pre : string) (c : ascii) (x : string) :
  mem_char c "param" = false ->
  contains "param" pre = false ->
  contains "param" (pre ++ String c x) = contains "param" x.
Proof.
  intros Hc Hpre. rewrite contains_app_break by exact Hc. now rewrite Hpre.
Qed.

Lemma contains_param_repr_app (p : Param) (rest : string) :
  contains "param" (param_repr p ++ rest)
  = mentions_param p || contains "param" rest.
Proof.
  unfold param_repr, mentions_param.
  rewrite !append_assoc.
  change (contains "param"
            ("{'type':" ++ String " "
               (repr (p_type p) ++
                ", 'name':" ++ String " " (repr (p_name p) ++ String "}" rest)))
          = contains "param" (p_type p) || contains "param" (p_name p)
            || contains "param" rest).
  rewrite contains_strip by reflexivity.
  rewrite contains_repr_app.
  rewrite contains_strip by reflexivity.
  rewrite contains_repr_app.
  rewrite contains_break_head by reflexivity.
  now rewrite orb_assoc.
Qed.

Lemma contains_join_app (ps : list Param) (rest : string) :
  contains "param" (join ", " (map param_repr ps) ++ rest)
  = existsb mentions_param ps || contains "param" rest.
Proof.
  induction ps as [| p ps IH]; [reflexivity |].
  destruct ps as [| p' ps].
  - change (join ", " (map param_repr [p])) with (param_repr p).
    rewrite contains_param_repr_app. simpl existsb. now rewrite orb_false_r.
  - change (join ", " (map param_repr (p :: p' :: ps)))
      with (param_repr p ++ ", " ++ join ", " (map param_repr (p' :: ps))).
    rewrite (append_assoc (param_repr p)), (append_assoc ", ").
    rewrite contains_param_repr_app.
    change (", " ++ ?x) with (String "," (String " " x)).
    rewrite !contains_break_head by reflexivity.
    rewrite IH. simpl existsb. now rewrite orb_assoc.
Qed.

(** [param] occurs in [str(params)] exactly when it occurs in the type or
    in the name of one of the parameters. *)
Lemma contains_params_str (ps : list Param) :
  contains "param" (params_str ps) = existsb mentions_param ps.
Proof.
  unfold params_str, list_repr.
  change ("[" ++ ?x) with (String "[" x).
  rewrite contains_break_head by reflexivity.
  rewrite contains_join_app. apply orb_false_r.
Qed.

Lemma occurs_contains (pat s : string) : occurs pat s <-> contains pat s = true.
Proof. unfold occurs. symmetry. apply contains_split. Qed.

Lemma score_c_eq (func : SignatureRecord) :
  score_c func = if existsb mentions_param (s_params func) then 0%Z else 100%Z.
Proof. unfold score_c. now rewrite contains_params_str. Qed.

(** C4, as the code has it: [score_c] is 100 exactly when the text
    [param] occurs in no parameter's type and in no parameter's name, as a
    substring; it is 0 in every other case. *)
Theorem score_c_substring (func : SignatureRecord) :
  (score_c func = 100%Z <->
   forall p, In p (s_params func) ->
     ~ occurs "param" (p_type p) /\ ~ occurs "param" (p_name p)) /\
  (score_c func <> 100%Z -> score_c func = 0%Z).
Proof.
  rewrite score_c_eq. split.
  - destruct (existsb mentions_param (s_params func)) eqn:E.
    + split; [discriminate |]. intros H. exfalso.
      apply existsb_exists in E as (p & Hin & Hp).
      destruct (H p Hin) as [Ht Hn].
      unfold mentions_param in Hp. apply orb_true_iff in Hp as [Hp | Hp];
        apply occurs_contains in Hp; contradiction.
    + split; [| reflexivity]. intros _ p Hin.
      assert (Hp : mentions_param p = false).
      { destruct (mentions_param p) eqn:Ep; [| reflexivity].
        assert (existsb mentions_param (s_params func) = true)
          by (apply existsb_exists; now exists p).
        congruence. }
      unfold mentions_param in Hp. apply orb_false_elim in Hp as [Ht Hn].
      split; intros Ho; apply occurs_contains in Ho; congruence.
  - destruct (existsb mentions_param (s_params func)); [reflexivity | contradiction].
Qed.

(** C4, as stated, fails: a parameter named [param1] is not the literal
    token [param], and the candidate's [score_c] is 0. *)
Lemma score_c_literal_token_counterexample :
  ~ (forall func : SignatureRecord,
       score_c func = 100%Z <->
       forall p, In p (s_params func) -> p_name p <> "param").
Proof.
  intros H. specialize (H cand_param1).
  assert (Hs : score_c cand_param1 = 100%Z).
  { apply H. intros p [<- | []]. discriminate. }
  vm_compute in Hs. discriminate.
Qed.

(** ** The two counts and the total *)

Lemma mem_In (h : string) (l : list string) : mem h l = true <-> In h l.
Proof.
  unfold mem. rewrite existsb_exists. split.
  - intros (x & Hin & E). apply String.eqb_eq in E. now subst.
  - intros Hin. exists h. split; [assumption | apply String.eqb_refl].
Qed.

Lemma count_in_filter (xs ys : list string) :
  count_in xs ys = Z.of_nat (List.length (filter (fun h => mem h ys) xs)).
Proof.
  induction xs as [| h xs IH]; [reflexivity |].
  simpl. rewrite IH. destruct (mem h ys); simpl List.length; lia.
Qed.

(** For duplicate-free lists the two loops count the same selectors. *)
Lemma count_in_sym (xs ys : list string) :
  NoDup xs -> NoDup ys -> count_in xs ys = count_in ys xs.
Proof.
  intros Hx Hy. rewrite !count_in_filter. f_equal.
  apply Permutation_length, NoDup_Permutation.
  - now apply NoDup_filter.
  - now apply NoDup_filter.
  - intros h. rewrite !filter_In, !mem_In. tauto.
Qed.

Lemma length_pos_nonzero {A : Type} (l : list A) :
  l <> [] -> Z.eqb (Z.of_nat (List.length l)) 0 = false.
Proof.
  intros H. destruct l; [contradiction |]. apply Z.eqb_neq. simpl List.length. lia.
Qed.

(** C3, as the code has it: for duplicate-free non-empty lists and
    parameters that do not mention [param], the score is the binary64 value
    of [10 * k / |observed| + k / |cooccurs| + 100], [k] being the size of
    the intersection. *)
Theorem match_score_formula (func : SignatureRecord) (hashes : list string) :
  NoDup hashes ->
  NoDup (s_cooccurs func) ->
  hashes <> [] ->
  s_cooccurs func <> [] ->
  existsb mentions_param (s_params func) = false ->
  match_score func hashes =
    Ok (score_formula (inter_size (s_cooccurs func) hashes)
                      (Z.of_nat (List.length hashes))
                      (Z.of_nat (List.length (s_cooccurs func))) 100).
Proof.
  intros Hh Hc Hne Hce Hp.
  unfold match_score, score_a, score_b, true_div, score_formula, inter_size.
  rewrite (length_pos_nonzero Hne), (length_pos_nonzero Hce).
  rewrite (count_in_sym Hh Hc), score_c_eq, Hp, <- count_in_filter.
  reflexivity.
Qed.

(** The example of the scoring formula: the sum is 322/3, and the code
    returns the double next to it. *)
Lemma match_score_formula_witness :
  match_score cand_s123 observed_s124 = Ok 0x1.ad55555555555p+6%float.
Proof.
  rewrite (@match_score_formula cand_s123 observed_s124).
  - vm_compute. reflexivity.
  - repeat constructor; simpl; intuition discriminate.
  - repeat constructor; simpl; intuition discriminate.
  - discriminate.
  - discriminate.
  - reflexivity.
Defined.

(** C3, as stated, fails on its own example: the score of cooccurs
    [{s1, s2, s3}] against [{s1, s2, s4}] is above 107, not 106.666...,
    and it is a double, [7552911875069269 / 2^46], not the rational
    322/3. *)
Lemma match_score_example_counterexample :
  exists v : float,
    match_score cand_s123 observed_s124 = Ok v /\
    PrimFloat.ltb 107 v = true /\
    FloatOps.Prim2SF v = SpecFloat.S754_finite false 7552911875069269 (-46) /\
    (3 * 7552911875069269 <> 322 * 2 ^ 46)%Z /\
    QArith_base.Qeq
      (QArith_base.Qplus
         (QArith_base.Qplus
            (QArith_base.Qmult (QArith_base.inject_Z 10) (QArith_base.Qmake 2 3))
            (QArith_base.Qmake 2 3))
         (QArith_base.inject_Z 100))
      (QArith_base.Qmake 322 3) /\
    ~ QArith_base.Qeq (QArith_base.Qmake 322 3) (QArith_base.Qmake 320 3).
Proof.
  exists 0x1.ad55555555555p+6%float.
  repeat split; try (vm_compute; reflexivity); vm_compute; discriminate.
Qed.

(** ** Candidates without co-occurring selectors *)

Lemma split_nonempty (sep : ascii) (s : string) : PyStr.split sep s <> [].
Proof.
  destruct s as [| c s]; simpl; [discriminate |].
  destruct (Ascii.eqb c sep); [discriminate |].
  destruct (PyStr.split sep s); discriminate.
Qed.

(** C5, as the code has it: a candidate built from a corpus row has a
    non-empty [cooccurs], the split of the stored column, so its score
    against a non-empty selector list is defined; for an empty column the
    list is [['']] and [score_b] is 0 unless the empty string is observed. *)
Theorem match_score_defined_on_rows (row : Supplement.Row) (hashes : list string) :
  hashes <> [] ->
  s_cooccurs (Supplement.sig_of_row row) <> [] /\
  (exists v, match_score (Supplement.sig_of_row row) hashes = Ok v) /\
  (Supplement.r_cooccurs row = EmptyString ->
   mem EmptyString hashes = false ->
   score_b (Supplement.sig_of_row row) hashes = Ok 0%float).
Proof.
  intros Hne.
  assert (Hco : s_cooccurs (Supplement.sig_of_row row) <> [])
    by apply split_nonempty.
  split; [exact Hco | split].
  - unfold match_score, score_a, score_b, true_div.
    rewrite (length_pos_nonzero Hne), (length_pos_nonzero Hco).
    simpl. eexists. reflexivity.
  - intros Hcol Hobs. unfold score_b. simpl s_cooccurs. rewrite Hcol.
    simpl. rewrite Hobs. reflexivity.
Qed.

Lemma match_score_defined_on_rows_witness :
  match_score (Supplement.sig_of_row row_empty_cooccurs) ["0x12345678"]
    = Ok 100%float /\
  score_b (Supplement.sig_of_row row_empty_cooccurs) ["0x12345678"] = Ok 0%float.
Proof.
  split.
  - reflexivity.
  - apply (@match_score_defined_on_rows row_empty_cooccurs ["0x12345678"]);
      [discriminate | reflexivity | reflexivity].
Defined.

(** C5, as stated, fails: with an empty [cooccurs] list the division of
    [score_b] raises. *)
Lemma match_score_empty_cooccurs_counterexample :
  s_cooccurs cand_no_cooccurs = [] /\
  match_score cand_no_cooccurs ["0x12345678"] = Raise ZeroDivisionError.
Proof. split; reflexivity. Qed.

End ScoreFacts.

(** * Properties of the ABI builder *)

Module SortFacts.

Local Open Scope string_scope.

Lemma ascii_compare_lt_trans (a b c : ascii) :
  Ascii.compare a b = Lt -> Ascii.compare b c = Lt -> Ascii.compare a c = Lt.
Proof.
  unfold Ascii.compare. rewrite !N.compare_lt_iff. apply N.lt_trans.
Qed.

Lemma compare_not_gt_trans (s1 s2 s3 : string) :
  String.compare s1 s2 <> Gt -> String.compare s2 s3 <> Gt ->
  String.compare s1 s3 <> Gt.
Proof.
  revert s2 s3. induction s1 as [| a s1 IH]; intros [| b s2] [| c s3];
    simpl; try congruence.
  destruct (Ascii.compare a b) eqn:Eab; try congruence.
  - apply Ascii.compare_eq_iff in Eab as ->.
    destruct (Ascii.compare b c); try congruence. apply IH.
  - destruct (Ascii.compare b c) eqn:Ebc; try congruence.
    + apply Ascii.compare_eq_iff in Ebc as <-. rewrite Eab. congruence.
    + rewrite (ascii_compare_lt_trans _ _ _ Eab Ebc). congruence.
Qed.

Lemma leb_not_gt (s1 s2 : string) :
  String.leb s1 s2 = true <-> String.compare s1 s2 <> Gt.
Proof.
  unfold String.leb. destruct (String.compare s1 s2); split; congruence.
Qed.

Lemma leb_trans (s1 s2 s3 : string) :
  String.leb s1 s2 = true -> String.leb s2 s3 = true -> String.leb s1 s3 = true.
Proof. rewrite !leb_not_gt. apply compare_not_gt_trans. Qed.

Lemma leb_false_flip (s1 s2 : string) :
  String.leb s1 s2 = false -> String.leb s2 s1 = true.
Proof.
  intros H. destruct (String.leb_total s1 s2) as [E | E]; congruence.
Qed.

(** Two insertions commute, whatever the list. *)
Lemma insert_sorted_comm (x y : string) (l : list string) :
  insert_sorted x (insert_sorted y l) = insert_sorted y (insert_sorted x l).
Proof.
  induction l as [| z r IH]; simpl.
  - destruct (String.leb x y) eqn:Exy, (String.leb y x) eqn:Eyx; try reflexivity.
    + now rewrite (String.leb_antisym _ _ Exy Eyx).
    + apply leb_false_flip in Exy. congruence.
  - destruct (String.leb x z) eqn:Exz, (String.leb y z) eqn:Eyz; simpl;
      rewrite ?Exz, ?Eyz.
    + destruct (String.leb x y) eqn:Exy, (String.leb y x) eqn:Eyx; try reflexivity.
      * now rewrite (String.leb_antisym _ _ Exy Eyx).
      * apply leb_false_flip in Exy. congruence.
    + destruct (String.leb y x) eqn:Eyx; [| reflexivity].
      rewrite (leb_trans _ _ _ Eyx Exz) in Eyz. discriminate.
    + destruct (String.leb x y) eqn:Exy; [| reflexivity].
      rewrite (leb_trans _ _ _ Exy Eyz) in Exz. discriminate.
    + now rewrite IH.
Qed.

(** [sorted] depends on the elements only, not on their order. *)
Lemma sorted_permutation (l l' : list string) :
  Permutation l l' -> sorted l = sorted l'.
Proof.
  induction 1 as [| x l l' _ IH | x y l | l l' l'' _ IH1 _ IH2]; simpl.
  - reflexivity.
  - now rewrite IH.
  - apply insert_sorted_comm.
  - now rewrite IH1.
Qed.

End SortFacts.

Section BuilderFacts.

Local Open Scope string_scope.

Variable target : Type.
Variable fetch_sigs : string -> list SignatureRecord.
Variable sha256_hexdigest : string -> string.
Variable cache_dir : string.

Local Abbreviation run := (@make_abi target fetch_sigs sha256_hexdigest cache_dir).
Local Abbreviation key := (@hash_name target sha256_hexdigest).
Local Abbreviation fname := (@cache_fname target sha256_hexdigest cache_dir).

Lemma match_score_total (f : SignatureRecord) (hashes : list string) :
  hashes <> [] -> s_cooccurs f <> [] ->
  exists v, Score.match_score f hashes = Ok v.
Proof.
  intros Hh Hc. unfold Score.match_score, Score.score_a, Score.score_b, Score.true_div.
  rewrite (ScoreFacts.length_pos_nonzero Hh), (ScoreFacts.length_pos_nonzero Hc).
  simpl. eexists. reflexivity.
Qed.

Lemma scan_sigs_total (hashes : list string) (sigs : list SignatureRecord) :
  hashes <> [] ->
  (forall f, In f sigs -> s_cooccurs f <> []) ->
  forall res : ABIEntry target, exists r, scan_sigs hashes sigs res = Ok r.
Proof.
  intros Hh. induction sigs as [| f sigs IH]; intros Hs res.
  - now exists res.
  - destruct (match_score_total f Hh (Hs f (or_introl eq_refl))) as [v Hv].
    simpl. rewrite Hv. simpl. apply IH. intros g Hg. apply Hs. now right.
Qed.

Lemma resolve_one_total (hashes : list string) (h : string) (t : target) :
  store_well_formed fetch_sigs -> hashes <> [] ->
  exists r, resolve_one fetch_sigs hashes h t = Ok r.
Proof.
  intros Hs Hh. unfold resolve_one.
  destruct (negb (PyStr.contains "0x" h)); [eexists; reflexivity |].
  destruct (0 <? List.length (fetch_sigs h))%nat; [| eexists; reflexivity].
  destruct (scan_sigs_total (fetch_sigs h) Hh (Hs h) (placeholder target h)) as [r Hr].
  rewrite Hr. eexists. reflexivity.
Qed.

Lemma build_total (hashes : list string) (items : list (string * target)) :
  store_well_formed fetch_sigs -> hashes <> [] \/ items = [] ->
  forall acc, exists abi, build fetch_sigs hashes items acc = Ok abi.
Proof.
  intros Hs. induction items as [| [h t] items IH]; intros Hh acc.
  - now exists acc.
  - destruct Hh as [Hh | Hh]; [| discriminate].
    destruct (resolve_one_total h t Hs Hh) as [r Hr].
    simpl. rewrite Hr. simpl. apply IH. now left.
Qed.

Lemma read_write_same (fs : CacheFS target) (p : string) (abi : ABIMap target) :
  read_file (write_file fs p abi) p = Some abi.
Proof. unfold write_file. simpl. now rewrite String.eqb_refl. Qed.

(** The cache key is the digest of the sorted selectors. *)
Lemma hash_name_permutation (ht ht' : list (string * target)) :
  Permutation (keys ht) (keys ht') -> key ht = key ht'.
Proof.
  intros H. unfold hash_name. now rewrite (SortFacts.sorted_permutation H).
Qed.

(** C8: over a store whose candidates have co-occurrence lists, a run of
    [make_abi] returns a map, and a second run over the same selectors,
    enumerated in any order, computes the same cache key and file name,
    returns the same map and leaves the cache files as they are. *)
Theorem make_abi_deterministic
    (ht ht' : list (string * target)) (st st' : Storage target)
    (fs : CacheFS target) :
  store_well_formed fetch_sigs ->
  Permutation (keys ht) (keys ht') ->
  key ht = key ht' /\
  fname ht = fname ht' /\
  exists abi fs1,
    run ht st fs = Ok (abi, mkStorage (Some abi) (st_func st), fs1) /\
    run ht' st' fs1 = Ok (abi, mkStorage (Some abi) (st_func st'), fs1).
Proof.
  intros Hs Hp.
  pose proof (hash_name_permutation _ _ Hp) as Hk.
  assert (Hf : fname ht = fname ht') by (unfold cache_fname; now rewrite Hk).
  split; [exact Hk | split; [exact Hf |]].
  unfold make_abi. rewrite <- Hf.
  destruct (read_file fs (fname ht)) as [abi |] eqn:Er.
  - exists abi, fs. rewrite Er. split; reflexivity.
  - assert (Hne : keys ht <> [] \/ ht = []).
    { destruct ht; [now right | left; discriminate]. }
    destruct (build_total Hs Hne []) as [abi Hb].
    exists abi, (write_file fs (fname ht) abi).
    rewrite Hb. simpl. rewrite String.eqb_refl. split; reflexivity.
Qed.

(** The loop over the candidates, one step at a time. *)
Lemma scan_sigs_app (hashes : list string) (pre post : list SignatureRecord)
    (res : ABIEntry target) :
  scan_sigs hashes (pre ++ post)%list res =
    (r <- scan_sigs hashes pre res ;; scan_sigs hashes post r).
Proof.
  revert res. induction pre as [| f pre IH]; intros res; [reflexivity |].
  simpl. destruct (Score.match_score f hashes); simpl; [apply IH | reflexivity].
Qed.

Lemma scan_sigs_no_positive (hashes : list string) (sigs : list SignatureRecord)
    (res : ABIEntry target) :
  (forall g, In g sigs ->
     exists w, Score.match_score g hashes = Ok w /\ PrimFloat.ltb 0 w = false) ->
  scan_sigs hashes sigs res = Ok res.
Proof.
  revert res. induction sigs as [| g sigs IH]; intros res H; [reflexivity |].
  destruct (H g (or_introl eq_refl)) as (w & Hw & Hz).
  simpl. rewrite Hw. simpl. rewrite Hz. apply IH. intros g' Hg'. apply H. now right.
Qed.

(** X1: what the loop keeps: the last candidate, in lookup order, whose score
    is above zero. *)
Lemma scan_sigs_last_positive (hashes : list string)
    (pre post : list SignatureRecord) (f : SignatureRecord) (v : float)
    (res : ABIEntry target) :
  (forall g, In g pre -> exists w, Score.match_score g hashes = Ok w) ->
  Score.match_score f hashes = Ok v ->
  PrimFloat.ltb 0 v = true ->
  (forall g, In g post ->
     exists w, Score.match_score g hashes = Ok w /\ PrimFloat.ltb 0 w = false) ->
  scan_sigs hashes (pre ++ f :: post)%list res = Ok (adopted target f).
Proof.
  intros Hpre Hv Hpos Hpost. rewrite scan_sigs_app.
  assert (Hr : exists r, scan_sigs hashes pre res = Ok r).
  { clear - Hpre. revert res. induction pre as [| g pre IH]; intros res.
    - now exists res.
    - destruct (Hpre g (or_introl eq_refl)) as [w Hw]. simpl. rewrite Hw. simpl.
      apply IH. intros g' Hg'. apply Hpre. now right. }
  destruct Hr as [r Hr]. rewrite Hr. simpl. rewrite Hv. simpl. rewrite Hpos.
  now apply scan_sigs_no_positive.
Qed.

End BuilderFacts.

Section BuilderExamples.

Local Open Scope string_scope.

Lemma store_transfer_well_formed : store_well_formed store_transfer.
Proof.
  intros h f. unfold store_transfer.
  destruct (String.eqb h "0xa9059cbb"); simpl.
  - intros [<- | [<- | []]]; discriminate.
  - intros [].
Defined.

Lemma make_abi_deterministic_witness :
  hash_name ex_digest targets_transfer = hash_name ex_digest (rev targets_transfer) /\
  cache_fname ex_digest ex_cache_dir targets_transfer
    = cache_fname ex_digest ex_cache_dir (rev targets_transfer) /\
  exists abi fs1,
    make_abi store_transfer ex_digest ex_cache_dir targets_transfer
             (mkStorage None None) []
      = Ok (abi, mkStorage (Some abi) None, fs1) /\
    make_abi store_transfer ex_digest ex_cache_dir (rev targets_transfer)
             (mkStorage None None) fs1
      = Ok (abi, mkStorage (Some abi) None, fs1).
Proof.
  apply (@make_abi_deterministic nat store_transfer ex_digest ex_cache_dir
           targets_transfer (rev targets_transfer)
           (mkStorage None None) (mkStorage None None) []).
  - exact store_transfer_well_formed.
  - apply perm_swap.
Defined.

(** C1: the first candidate of the selector scores 111 and the second 6,
    and the entry [make_abi] builds is the second candidate's: the loop
    compares every score with zero and keeps the last one above it. *)
Theorem make_abi_keeps_last_positive_candidate :
  Score.match_score cand_transfer (keys targets_transfer) = Ok 111%float /\
  Score.match_score cand_babbage (keys targets_transfer) = Ok 6%float /\
  PrimFloat.ltb 6 111 = true /\
  exists st fs,
    make_abi store_transfer ex_digest ex_cache_dir targets_transfer
             (mkStorage None None) []
      = Ok ([("0xa9059cbb", set_target (adopted nat cand_babbage) 1%nat);
             ("0x70a08231", set_target (placeholder nat "0x70a08231") 2%nat)],
            st, fs).
Proof.
  repeat split; try (vm_compute; reflexivity).
  eexists. eexists. vm_compute. reflexivity.
Qed.

End BuilderExamples.

(** * Properties of the corpus files *)

Module SupplementFacts.

Import Supplement.




(** X2: without the archive a failing or missing working copy cannot be
    rebuilt: opening the archive raises. *)
Lemma check_supplements_no_archive (fs : FS) :
  data_xz fs = None ->
  (forall f, data_db fs = Some f -> probe f = false ->
     check_supplements fs = Raise FileNotFoundError) /\
  (data_db fs = None -> check_supplements fs = Raise FileNotFoundError).
Proof.
  destruct fs as [c d x]. simpl. intros ->. split.
  - intros f -> Hp. unfold check_supplements, check_supplements_at. simpl.
    rewrite Hp. reflexivity.
  - intros ->. reflexivity.
Qed.

(** The copy branch needs a working copy that is missing or fails the probe
    next to a decompressed file that exists.  Were the working copy the
    cache file, chosen because the decompressed file is absent, the source
    would again be the archive. *)
Lemma check_supplements_at_cache (fs : FS) (archive : db_file) :
  data_db fs = None ->
  data_xz fs = Some archive ->
  (forall f, cache_db fs = Some f -> probe f = true ->
     check_supplements_at CacheDb fs = Ok fs) /\
  (forall f, cache_db fs = Some f -> probe f = false ->
     check_supplements_at CacheDb fs = Ok (write fs CacheDb (Some archive))) /\
  (cache_db fs = None ->
     check_supplements_at CacheDb fs = Ok (write fs CacheDb (Some archive))).
Proof.
  destruct fs as [c d x]. simpl. intros -> ->. repeat split.
  - intros f -> Hp. unfold check_supplements_at. simpl. rewrite Hp. reflexivity.
  - intros f -> Hp. unfold check_supplements_at. simpl. rewrite Hp. reflexivity.
  - intros ->. reflexivity.
Qed.

End SupplementFacts.

(** * Properties of the accessors *)

Module ApiFacts.

Import Api.
Local Open Scope string_scope.

Section AccessorFacts.

Variable target : Type.
Variables GREEN ENDC : string.
Variable cleanup : expr -> expr.

Lemma heap_set_same (hp : list (ABIEntry target)) (loc : nat)
    (e e' : ABIEntry target) :
  nth_error hp loc = Some e -> nth_error (heap_set hp loc e') loc = Some e'.
Proof.
  revert loc. induction hp as [| x hp IH]; intros [| n] H; simpl in *;
    try discriminate; [reflexivity | now apply IH].
Qed.

Lemma heap_set_other (hp : list (ABIEntry target)) (loc loc' : nat)
    (e' : ABIEntry target) :
  loc <> loc' -> nth_error (heap_set hp loc e') loc' = nth_error hp loc'.
Proof.
  revert loc loc'. induction hp as [| x hp IH]; intros [| n] [| m] H; simpl;
    try reflexivity; [contradiction | apply IH; congruence].
Qed.

Lemma dict_get_alloc (abi : ABIMap target) (base : nat) (h : string) :
  match dict_get abi h with
  | Some e =>
      exists loc, dict_get (alloc abi base) h = Some loc /\
                  (base <= loc)%nat /\
                  nth_error (map snd abi) (loc - base) = Some e
  | None => dict_get (alloc abi base) h = None
  end.
Proof.
  revert base. induction abi as [| [k v] abi IH]; intros base; simpl; [reflexivity |].
  destruct (String.eqb k h).
  - exists base. rewrite Nat.sub_diag. repeat split. lia.
  - specialize (IH (S base)). destruct (dict_get abi h) as [e |]; [| exact IH].
    destruct IH as (loc & Hg & Hle & Hn). exists loc. repeat split; [exact Hg | lia |].
    replace (loc - base)%nat with (S (loc - S base)) by lia. exact Hn.
Qed.

(** Looking a selector up in a map just installed finds the map's entry. *)
Lemma abi_entry_install (abi : ABIMap target) (s : PyState target) (h : string) :
  match dict_get abi h with
  | Some e =>
      exists loc, abi_entry (install abi s) h = Return loc /\
                  deref (install abi s) loc = Some e
  | None => abi_entry (install abi s) h = Throw KeyError
  end.
Proof.
  unfold abi_entry, deref, install. simpl.
  pose proof (dict_get_alloc abi (List.length (heap s)) h) as H.
  destruct (dict_get abi h) as [e |].
  - destruct H as (loc & Hg & Hle & Hn). exists loc. rewrite Hg.
    split; [reflexivity |]. rewrite nth_error_app2 by exact Hle. exact Hn.
  - now rewrite H.
Qed.

(** The accessors on a map just installed read the map's entry. *)
Lemma get_func_params_install (abi : ABIMap target) (s : PyState target)
    (h : string) (e : ABIEntry target) :
  dict_get abi h = Some e ->
  get_func_params (install abi s) h
    = Return (match e_params e with Some ps => ps | None => [] end).
Proof.
  intros Hg. pose proof (abi_entry_install abi s h) as H. rewrite Hg in H.
  destruct H as (loc & Ha & Hd). unfold get_func_params, entry_at.
  rewrite Ha. simpl. rewrite Hd. simpl. now destruct (e_params e).
Qed.

Lemma get_abi_name_install (abi : ABIMap target) (s : PyState target)
    (h : string) (e : ABIEntry target) :
  dict_get abi h = Some e ->
  get_abi_name (install abi s) h
    = match e_params e with
      | Some params =>
          name <~ field (e_name e) ;;
          Return (Some (name ++ "(" ++ PyStr.join "," (map p_type params) ++ ")"))
      | None => Return None
      end.
Proof.
  intros Hg. pose proof (abi_entry_install abi s h) as H. rewrite Hg in H.
  destruct H as (loc & Ha & Hd). unfold get_abi_name, entry_at.
  rewrite Ha. simpl. rewrite Hd. reflexivity.
Qed.

Lemma get_func_name_install (abi : ABIMap target) (s : PyState target)
    (h : string) (e : ABIEntry target) (c : bool) :
  dict_get abi h = Some e ->
  get_func_name GREEN ENDC (install abi s) h c
    = match e_params e with
      | Some params =>
          name <~ field (e_name e) ;;
          items <~ render_params GREEN ENDC params c ;;
          Return (name ++ "(" ++ PyStr.join ", " items ++ ")")
      | None => field (e_folded_name e)
      end.
Proof.
  intros Hg. pose proof (abi_entry_install abi s h) as H. rewrite Hg in H.
  destruct H as (loc & Ha & Hd). unfold get_func_name, entry_at.
  rewrite Ha. simpl. rewrite Hd. reflexivity.
Qed.

Lemma accessors_missing (abi : ABIMap target) (s : PyState target)
    (h : string) (c : bool) :
  dict_get abi h = None ->
  get_func_params (install abi s) h = Throw KeyError /\
  get_abi_name (install abi s) h = Throw KeyError /\
  get_func_name GREEN ENDC (install abi s) h c = Throw KeyError /\
  set_func (install abi s) h = Throw KeyError.
Proof.
  intros Hg. pose proof (abi_entry_install abi s h) as H. rewrite Hg in H.
  unfold get_func_params, get_abi_name, get_func_name, set_func.
  rewrite H. repeat split.
Qed.

End AccessorFacts.

End ApiFacts.

(** * More properties of the ABI builder *)

Section BuilderEntries.

Local Open Scope string_scope.

Variable target : Type.
Variable fetch_sigs : string -> list SignatureRecord.
Variable sha256_hexdigest : string -> string.
Variable cache_dir : string.

Local Abbreviation run := (@make_abi target fetch_sigs sha256_hexdigest cache_dir).
Local Abbreviation fname := (@cache_fname target sha256_hexdigest cache_dir).
Local Abbreviation resolve1 := (@resolve_one target fetch_sigs).

Lemma dict_get_set_same (d : ABIMap target) (h : string) (v : ABIEntry target) :
  Api.dict_get (dict_set d h v) h = Some v.
Proof.
  induction d as [| [k w] d IH]; simpl.
  - now rewrite String.eqb_refl.
  - destruct (String.eqb k h) eqn:E; simpl; rewrite E; [reflexivity | exact IH].
Qed.

Lemma dict_get_set_other (d : ABIMap target) (h k : string) (v : ABIEntry target) :
  h <> k -> Api.dict_get (dict_set d h v) k = Api.dict_get d k.
Proof.
  intros Hne. induction d as [| [k' w] d IH]; simpl.
  - apply String.eqb_neq in Hne. now rewrite Hne.
  - destruct (String.eqb k' h) eqn:E; simpl.
    + apply String.eqb_eq in E. subst k'.
      apply String.eqb_neq in Hne. now rewrite Hne.
    + destruct (String.eqb k' k); [reflexivity | exact IH].
Qed.

Lemma dict_set_fresh (d : ABIMap target) (h : string) (v : ABIEntry target) :
  ~ In h (map fst d) -> dict_set d h v = (d ++ [(h, v)])%list.
Proof.
  induction d as [| [k w] d IH]; intros Hn; simpl; [reflexivity |].
  destruct (String.eqb_spec k h) as [-> | _].
  - exfalso. apply Hn. now left.
  - rewrite IH; [reflexivity |]. intros Hin. apply Hn. now right.
Qed.

(** What the loop over the items leaves: the entries it started with, then
    one entry per item, in order. *)
Lemma build_appends (hashes : list string) (items : list (string * target))
    (acc abi : ABIMap target) :
  NoDup (map fst acc ++ keys items)%list ->
  build fetch_sigs hashes items acc = Ok abi ->
  exists entries,
    abi = (acc ++ entries)%list /\
    map fst entries = keys items /\
    Forall2 (fun item entry => resolve1 hashes (fst item) (snd item) = Ok (snd entry))
            items entries.
Proof.
  revert acc. induction items as [| [h t] items IH]; intros acc Hnd Hb; simpl in *.
  - injection Hb as <-. exists []. rewrite app_nil_r. repeat split. constructor.
  - destruct (resolve1 hashes h t) as [res |] eqn:Er; simpl in Hb; [| discriminate].
    assert (Hfresh : ~ In h (map fst acc)).
    { intros Hin. apply NoDup_remove_2 in Hnd. apply Hnd, in_or_app. now left. }
    rewrite dict_set_fresh in Hb by exact Hfresh.
    apply IH in Hb.
    + destruct Hb as (entries & -> & Hk & Hf).
      exists ((h, res) :: entries). rewrite <- app_assoc. simpl.
      repeat split; [now rewrite Hk |]. constructor; [exact Er | exact Hf].
    + rewrite map_app. simpl. rewrite <- app_assoc. exact Hnd.
Qed.

Lemma make_abi_cold (ht : list (string * target)) (st st1 : Storage target)
    (fs fs1 : CacheFS target) (abi : ABIMap target) :
  read_file fs (fname ht) = None ->
  run ht st fs = Ok (abi, st1, fs1) ->
  build fetch_sigs (keys ht) ht [] = Ok abi /\
  st1 = mkStorage (Some abi) (st_func st) /\
  fs1 = write_file fs (fname ht) abi.
Proof.
  unfold make_abi. intros ->.
  destruct (build fetch_sigs (keys ht) ht []) as [abi' |]; simpl; [| discriminate].
  intros H. injection H as <- <- <-. repeat split.
Qed.

Lemma resolve_one_target (hashes : list string) (h : string) (t : target)
    (e : ABIEntry target) :
  resolve1 hashes h t = Ok e -> e_target e = Some t.
Proof.
  unfold resolve_one.
  destruct (if negb (PyStr.contains "0x" h) then _ else _) as [res |]; simpl;
    [| discriminate].
  intros H. injection H as <-. reflexivity.
Qed.

Lemma entries_lookup (hashes : list string) (items : list (string * target))
    (entries : ABIMap target) :
  NoDup (keys items) ->
  map fst entries = keys items ->
  Forall2 (fun item entry => resolve1 hashes (fst item) (snd item) = Ok (snd entry))
          items entries ->
  forall h,
    match Api.dict_get items h with
    | Some t => exists e, resolve1 hashes h t = Ok e /\ Api.dict_get entries h = Some e
    | None => Api.dict_get entries h = None
    end.
Proof.
  intros Hnd Hk Hf h. revert Hnd Hk.
  induction Hf as [| [k t] [k' e] items entries Hr Hf IH]; intros Hnd Hk;
    [reflexivity |].
  simpl in *. injection Hk as -> Hk. inversion Hnd as [| ? ? Hnin Hnd']; subst.
  destruct (String.eqb_spec k h) as [-> | Hne].
  - exists e. split; [exact Hr | reflexivity].
  - now apply IH.
Qed.

Lemma dict_get_In {V : Type} (d : list (string * V)) (h : string) (v : V) :
  NoDup (map fst d) -> In (h, v) d -> Api.dict_get d h = Some v.
Proof.
  induction d as [| [k w] d IH]; intros Hnd Hin; [contradiction |].
  simpl in *. inversion Hnd as [| ? ? Hnin Hnd']; subst.
  destruct Hin as [E | Hin].
  - injection E as -> ->. now rewrite String.eqb_refl.
  - destruct (String.eqb_spec k h) as [-> | _]; [| now apply IH].
    exfalso. apply Hnin. change h with (fst (h, v)). now apply in_map.
Qed.

(** The entry a cold run of [make_abi] files under a selector is the one
    the loop body computes for it. *)
Lemma make_abi_cold_lookup (ht : list (string * target)) (st st1 : Storage target)
    (fs fs1 : CacheFS target) (abi : ABIMap target) :
  NoDup (keys ht) ->
  read_file fs (fname ht) = None ->
  run ht st fs = Ok (abi, st1, fs1) ->
  map fst abi = keys ht /\
  forall h,
    match Api.dict_get ht h with
    | Some t => exists e, resolve1 (keys ht) h t = Ok e /\ Api.dict_get abi h = Some e
    | None => Api.dict_get abi h = None
    end.
Proof.
  intros Hnd Hcold Hrun.
  destruct (make_abi_cold _ _ _ Hcold Hrun) as (Hb & _ & _).
  apply build_appends in Hb; [| exact Hnd].
  destruct Hb as (entries & -> & Hk & Hf). simpl.
  split; [exact Hk |]. now apply entries_lookup.
Qed.

(** X3: a cold run of [make_abi] over distinct selectors returns one entry
    per selector, in the order of the input, each carrying the target
    given for its selector. *)
Theorem make_abi_entries_cover (ht : list (string * target))
    (st st1 : Storage target) (fs fs1 : CacheFS target) (abi : ABIMap target) :
  NoDup (keys ht) ->
  read_file fs (fname ht) = None ->
  run ht st fs = Ok (abi, st1, fs1) ->
  map (fun kv => (fst kv, e_target (snd kv))) abi
    = map (fun kv => (fst kv, Some (snd kv))) ht.
Proof.
  intros Hnd Hcold Hrun.
  destruct (make_abi_cold _ _ _ Hcold Hrun) as (Hb & _ & _).
  apply build_appends in Hb; [| exact Hnd].
  destruct Hb as (entries & -> & Hk & Hf). simpl. clear - Hk Hf.
  revert Hk. induction Hf as [| [k t] [k' e] items entries Hr Hf IH]; intros Hk;
    [reflexivity |].
  simpl in *. injection Hk as -> Hk.
  rewrite (resolve_one_target _ _ _ Hr), (IH Hk). reflexivity.
Qed.

End BuilderEntries.

Section BuilderOutcomes.

Local Open Scope string_scope.

Variable target : Type.
Variable fetch_sigs : string -> list SignatureRecord.
Variable sha256_hexdigest : string -> string.
Variable cache_dir : string.
Variables GREEN ENDC : string.

Local Abbreviation run := (@make_abi target fetch_sigs sha256_hexdigest cache_dir).
Local Abbreviation fname := (@cache_fname target sha256_hexdigest cache_dir).
Local Abbreviation resolve1 := (@resolve_one target fetch_sigs).

(** X4: a tag without [0x] in it, such as [_fallback], is filed under its
    own name with no parameters, and the accessors over the built map
    return the tag, an empty parameter list and no ABI name. *)
Theorem make_abi_tag_entry (ht : list (string * target))
    (st st1 : Storage target) (fs fs1 : CacheFS target) (abi : ABIMap target)
    (h : string) (t : target) (s : Api.PyState target) (add_color : bool) :
  NoDup (keys ht) ->
  read_file fs (fname ht) = None ->
  run ht st fs = Ok (abi, st1, fs1) ->
  In (h, t) ht ->
  PyStr.contains "0x" h = false ->
  Api.dict_get abi h = Some (mkEntry (Some h) None (Some h) None (Some t)) /\
  Api.get_func_name GREEN ENDC (Api.install abi s) h add_color = Api.Return h /\
  Api.get_func_params (Api.install abi s) h = Api.Return [] /\
  Api.get_abi_name (Api.install abi s) h = Api.Return None.
Proof.
  intros Hnd Hcold Hrun Hin Htag.
  destruct (@make_abi_cold_lookup target fetch_sigs sha256_hexdigest cache_dir
              ht st st1 fs fs1 abi Hnd Hcold Hrun) as [_ Hl].
  specialize (Hl h). rewrite (@dict_get_In target ht h t Hnd Hin) in Hl.
  destruct Hl as (e & Hr & Hg).
  unfold resolve_one in Hr. rewrite Htag in Hr. simpl in Hr. injection Hr as <-.
  split; [exact Hg |].
  rewrite (@ApiFacts.get_func_name_install target GREEN ENDC abi s h _ add_color Hg),
          (@ApiFacts.get_func_params_install target abi s h _ Hg),
          (@ApiFacts.get_abi_name_install target abi s h _ Hg).
  repeat split.
Qed.

(** X5: a selector for which the store has no candidate gets the
    placeholder: [unknown] followed by the selector without its first two
    characters; [get_func_name] shows it with [(?)], and there are no
    parameters and no ABI name. *)
Theorem make_abi_unknown_entry (ht : list (string * target))
    (st st1 : Storage target) (fs fs1 : CacheFS target) (abi : ABIMap target)
    (h : string) (t : target) (s : Api.PyState target) (add_color : bool) :
  NoDup (keys ht) ->
  read_file fs (fname ht) = None ->
  run ht st fs = Ok (abi, st1, fs1) ->
  In (h, t) ht ->
  PyStr.contains "0x" h = true ->
  fetch_sigs h = [] ->
  Api.dict_get abi h
    = Some (mkEntry (Some ("unknown" ++ drop2 h ++ "()")) None
                    (Some ("unknown" ++ drop2 h ++ "(?)")) None (Some t)) /\
  Api.get_func_name GREEN ENDC (Api.install abi s) h add_color
    = Api.Return ("unknown" ++ drop2 h ++ "(?)") /\
  Api.get_func_params (Api.install abi s) h = Api.Return [] /\
  Api.get_abi_name (Api.install abi s) h = Api.Return None.
Proof.
  intros Hnd Hcold Hrun Hin Hsel Hnone.
  destruct (@make_abi_cold_lookup target fetch_sigs sha256_hexdigest cache_dir
              ht st st1 fs fs1 abi Hnd Hcold Hrun) as [_ Hl].
  specialize (Hl h). rewrite (@dict_get_In target ht h t Hnd Hin) in Hl.
  destruct Hl as (e & Hr & Hg).
  unfold resolve_one in Hr. rewrite Hsel, Hnone in Hr. simpl in Hr. injection Hr as <-.
  split; [exact Hg |].
  rewrite (@ApiFacts.get_func_name_install target GREEN ENDC abi s h _ add_color Hg),
          (@ApiFacts.get_func_params_install target abi s h _ Hg),
          (@ApiFacts.get_abi_name_install target abi s h _ Hg).
  repeat split.
Qed.

(** The loop over the candidates returns the entry it started with or the
    adoption of one of the candidates, whose score is above zero. *)
Lemma scan_sigs_inv (hashes : list string) (sigs : list SignatureRecord)
    (res r : ABIEntry target) :
  scan_sigs hashes sigs res = Ok r ->
  r = res \/
  exists f v, In f sigs /\ Score.match_score f hashes = Ok v /\
              PrimFloat.ltb 0 v = true /\ r = adopted target f.
Proof.
  revert res. induction sigs as [| f sigs IH]; intros res H; simpl in H.
  - injection H as <-. now left.
  - destruct (Score.match_score f hashes) as [v |] eqn:Ev; simpl in H; [| discriminate].
    apply IH in H. destruct H as [-> | (g & w & Hin & Hw & Hpos & ->)].
    + destruct (PrimFloat.ltb 0 v) eqn:Epos; [| now left].
      right. exists f, v. repeat split; auto. now left.
    + right. exists g, w. repeat split; auto. now right.
Qed.

(** X6: [make_abi] invents no signature: an entry of a cold run that has a
    parameter list repeats the name, folded name and parameters of a
    candidate the store returned for that very selector, and that
    candidate's score against the observed selectors is above zero. *)
Theorem make_abi_params_from_store (ht : list (string * target))
    (st st1 : Storage target) (fs fs1 : CacheFS target) (abi : ABIMap target)
    (h : string) (e : ABIEntry target) (ps : list Param) :
  NoDup (keys ht) ->
  read_file fs (fname ht) = None ->
  run ht st fs = Ok (abi, st1, fs1) ->
  Api.dict_get abi h = Some e ->
  e_params e = Some ps ->
  exists f v,
    In f (fetch_sigs h) /\
    Score.match_score f (keys ht) = Ok v /\
    PrimFloat.ltb 0 v = true /\
    e_name e = Some (s_name f) /\
    e_folded_name e = Some (s_folded_name f) /\
    ps = s_params f /\
    e_fname e = None.
Proof.
  intros Hnd Hcold Hrun Hg Hps.
  destruct (@make_abi_cold_lookup target fetch_sigs sha256_hexdigest cache_dir
              ht st st1 fs fs1 abi Hnd Hcold Hrun) as [_ Hl].
  specialize (Hl h). destruct (Api.dict_get ht h) as [t |]; [| congruence].
  destruct Hl as (e' & Hr & Hg'). rewrite Hg in Hg'. injection Hg' as <-.
  unfold resolve_one in Hr.
  destruct (negb (PyStr.contains "0x" h)).
  { simpl in Hr. injection Hr as <-. discriminate. }
  destruct (0 <? List.length (fetch_sigs h))%nat.
  2:{ simpl in Hr. injection Hr as <-. discriminate. }
  destruct (scan_sigs (keys ht) (fetch_sigs h) (placeholder target h)) as [r |] eqn:Es;
    simpl in Hr; [| discriminate].
  injection Hr as <-.
  apply scan_sigs_inv in Es. destruct Es as [-> | (f & v & Hin & Hv & Hpos & ->)].
  - discriminate.
  - exists f, v. simpl in Hps. injection Hps as <-. repeat split; auto.
Qed.

End BuilderOutcomes.

(** ** The order of the observed selectors *)

Module OrderFacts.

Import Score.

Lemma mem_perm (h : string) (l l' : list string) :
  Permutation l l' -> mem h l = mem h l'.
Proof.
  intros Hp. destruct (mem h l) eqn:E, (mem h l') eqn:E'; try reflexivity.
  - apply ScoreFacts.mem_In in E. apply (Permutation_in _ Hp) in E.
    apply ScoreFacts.mem_In in E. congruence.
  - apply ScoreFacts.mem_In in E'. apply (Permutation_in _ (Permutation_sym Hp)) in E'.
    apply ScoreFacts.mem_In in E'. congruence.
Qed.

Lemma count_in_perm_l (xs xs' ys : list string) :
  Permutation xs xs' -> count_in xs ys = count_in xs' ys.
Proof.
  induction 1 as [| x l l' _ IH | x y l | l l' l'' _ IH1 _ IH2]; simpl; lia.
Qed.

Lemma count_in_perm_r (xs ys ys' : list string) :
  Permutation ys ys' -> count_in xs ys = count_in xs ys'.
Proof.
  intros Hp. induction xs as [| x xs IH]; simpl; [reflexivity |].
  now rewrite IH, (mem_perm x Hp).
Qed.

(** The score of a candidate does not depend on the order in which the
    observed selectors are listed. *)
Lemma match_score_perm (f : SignatureRecord) (hashes hashes' : list string) :
  Permutation hashes hashes' -> match_score f hashes = match_score f hashes'.
Proof.
  intros Hp. unfold match_score, score_a, score_b.
  now rewrite (count_in_perm_l _ Hp), (count_in_perm_r _ Hp), (Permutation_length Hp).
Qed.

Lemma dict_get_Some_In {V : Type} (d : list (string * V)) (h : string) (v : V) :
  Api.dict_get d h = Some v -> In (h, v) d.
Proof.
  induction d as [| [k w] d IH]; simpl; [discriminate |].
  destruct (String.eqb_spec k h) as [-> | _].
  - intros H. injection H as ->. now left.
  - intros H. right. now apply IH.
Qed.

Lemma dict_get_None {V : Type} (d : list (string * V)) (h : string) :
  Api.dict_get d h = None <-> ~ In h (map fst d).
Proof.
  induction d as [| [k w] d IH]; simpl; [tauto |].
  destruct (String.eqb_spec k h) as [-> | Hne].
  - split; [discriminate | intros H; exfalso; apply H; now left].
  - rewrite IH. tauto.
Qed.

Lemma dict_get_perm {V : Type} (d d' : list (string * V)) (h : string) :
  NoDup (map fst d) -> Permutation d d' -> Api.dict_get d h = Api.dict_get d' h.
Proof.
  intros Hnd Hp.
  assert (Hnd' : NoDup (map fst d'))
    by (eapply Permutation_NoDup; [apply Permutation_map, Hp | exact Hnd]).
  destruct (Api.dict_get d h) as [v |] eqn:E.
  - apply dict_get_Some_In in E. apply (Permutation_in _ Hp) in E.
    symmetry. now apply dict_get_In.
  - symmetry. apply dict_get_None. apply dict_get_None in E.
    intros Hin. apply E.
    apply (Permutation_in _ (Permutation_sym (Permutation_map fst Hp))). exact Hin.
Qed.

Section Builds.

Variable target : Type.
Variable fetch_sigs : string -> list SignatureRecord.
Variable sha256_hexdigest : string -> string.
Variable cache_dir : string.

Local Abbreviation run := (@make_abi target fetch_sigs sha256_hexdigest cache_dir).
Local Abbreviation fname := (@cache_fname target sha256_hexdigest cache_dir).
Local Abbreviation resolve1 := (@resolve_one target fetch_sigs).

Lemma scan_sigs_perm (hashes hashes' : list string) (sigs : list SignatureRecord)
    (res : ABIEntry target) :
  Permutation hashes hashes' ->
  scan_sigs hashes sigs res = scan_sigs hashes' sigs res.
Proof.
  intros Hp. revert res. induction sigs as [| f sigs IH]; intros res; [reflexivity |].
  simpl. rewrite (match_score_perm f Hp).
  destruct (match_score f hashes'); simpl; [apply IH | reflexivity].
Qed.

Lemma resolve_one_perm (hashes hashes' : list string) (h : string) (t : target) :
  Permutation hashes hashes' -> resolve1 hashes h t = resolve1 hashes' h t.
Proof.
  intros Hp. unfold resolve_one. now rewrite (scan_sigs_perm _ _ Hp).
Qed.

Lemma build_ok (hashes : list string) (items : list (string * target)) :
  Forall (fun item => exists e, resolve1 hashes (fst item) (snd item) = Ok e) items ->
  forall acc, exists abi, build fetch_sigs hashes items acc = Ok abi.
Proof.
  induction 1 as [| [h t] items (e & He) _ IH]; intros acc.
  - now exists acc.
  - simpl in *. rewrite He. simpl. apply IH.
Qed.

(** X7: two cold runs of [make_abi] over the same selectors and targets,
    enumerated in different orders, file the same entry under every
    selector; the second run returns whenever the first one does. *)
Theorem make_abi_order_independent (ht ht' : list (string * target))
    (st st' st1 : Storage target) (fs fs' fs1 : CacheFS target)
    (abi : ABIMap target) :
  NoDup (keys ht) ->
  Permutation ht ht' ->
  read_file fs (fname ht) = None ->
  read_file fs' (fname ht') = None ->
  run ht st fs = Ok (abi, st1, fs1) ->
  exists abi',
    run ht' st' fs'
      = Ok (abi', mkStorage (Some abi') (st_func st'),
            write_file fs' (fname ht') abi') /\
    forall h, Api.dict_get abi' h = Api.dict_get abi h.
Proof.
  intros Hnd Hp Hcold Hcold' Hrun.
  assert (Hpk : Permutation (keys ht) (keys ht')) by apply Permutation_map, Hp.
  assert (Hnd' : NoDup (keys ht')) by (eapply Permutation_NoDup; eassumption).
  destruct (@make_abi_cold_lookup target fetch_sigs sha256_hexdigest cache_dir
              ht st st1 fs fs1 abi Hnd Hcold Hrun) as [_ Hl].
  assert (Hall : Forall (fun item => exists e,
                           resolve1 (keys ht') (fst item) (snd item) = Ok e) ht').
  { apply Forall_forall. intros [h t] Hin. simpl.
    apply (Permutation_in _ (Permutation_sym Hp)) in Hin.
    specialize (Hl h). rewrite (@dict_get_In target ht h t Hnd Hin) in Hl.
    destruct Hl as (e & Hr & _). exists e.
    now rewrite <- (@resolve_one_perm (keys ht) (keys ht') h t Hpk). }
  destruct (@build_ok (keys ht') ht' Hall []) as [abi' Hb].
  exists abi'.
  assert (Hrun' : run ht' st' fs'
                  = Ok (abi', mkStorage (Some abi') (st_func st'),
                        write_file fs' (fname ht') abi')).
  { unfold make_abi. rewrite Hcold', Hb. reflexivity. }
  split; [exact Hrun' |].
  destruct (@make_abi_cold_lookup target fetch_sigs sha256_hexdigest cache_dir
              ht' st' _ fs' _ abi' Hnd' Hcold' Hrun') as [_ Hl'].
  intros h. specialize (Hl h). specialize (Hl' h).
  rewrite <- (@dict_get_perm target ht ht' h Hnd Hp) in Hl'.
  destruct (Api.dict_get ht h) as [t |].
  - destruct Hl as (e & Hr & Hg). destruct Hl' as (e' & Hr' & Hg').
    rewrite <- (@resolve_one_perm (keys ht) (keys ht') h t Hpk) in Hr'. congruence.
  - congruence.
Qed.

End Builds.

End OrderFacts.

(** * More properties of the parameter name resolver *)

Section ResolverEdges.

Local Open Scope string_scope.
Local Open Scope Z_scope.

Variable target : Type.
Variables GREEN ENDC : string.
Variable cleanup : expr -> expr.

Local Abbreviation resolve := (@get_param_name target GREEN ENDC cleanup).

Lemma py_index_from_end {A : Type} (l : list A) (j : nat) (a : A) :
  (1 <= j <= List.length l)%nat ->
  nth_error l (List.length l - j) = Some a ->
  py_index l (- Z.of_nat j) = Ok a.
Proof.
  intros Hj Hn. unfold py_index.
  destruct (Z.ltb_spec (- Z.of_nat j) 0) as [_ | H]; [| lia].
  destruct (Z.ltb_spec (- Z.of_nat j + Z.of_nat (List.length l)) 0) as [H | _]; [lia |].
  destruct (Z.leb_spec (Z.of_nat (List.length l))
                       (- Z.of_nat j + Z.of_nat (List.length l))) as [H | _]; [lia |].
  simpl.
  replace (Z.to_nat (- Z.of_nat j + Z.of_nat (List.length l)))
    with (List.length l - j)%nat by lia.
  now rewrite Hn.
Qed.

Lemma py_index_before_start {A : Type} (l : list A) (j : nat) :
  (List.length l < j)%nat -> py_index l (- Z.of_nat j) = Raise IndexError.
Proof.
  intros Hj. unfold py_index.
  destruct (Z.ltb_spec (- Z.of_nat j) 0) as [_ | H]; [| lia].
  destruct (Z.ltb_spec (- Z.of_nat j + Z.of_nat (List.length l)) 0) as [_ | H]; [| lia].
  reflexivity.
Qed.

(** X8: an aligned offset below 4 gives a negative index, which Python
    counts from the end of the parameter list: offset [4 - 32 * j] resolves
    to the name of the [j]-th parameter from the end, and raises
    [IndexError] when the list has fewer than [j] parameters. *)
Theorem get_param_name_negative_index
    (st : Storage target) (params : list Param) (j : nat) (add_color : bool) :
  active st params ->
  (1 <= j)%nat ->
  (forall p, (j <= List.length params)%nat ->
     nth_error params (List.length params - j) = Some p ->
     resolve st (cd_read (EInt (4 - 32 * Z.of_nat j))) add_color
       = Ok (EStr (colorize ENDC (p_name p) GREEN add_color))) /\
  ((List.length params < j)%nat ->
     resolve st (cd_read (EInt (4 - 32 * Z.of_nat j))) add_color
       = Raise IndexError).
Proof.
  intros Hact Hj.
  assert (Hmod : (4 - 32 * Z.of_nat j - 4) mod 32 = 0).
  { replace (4 - 32 * Z.of_nat j - 4) with ((- Z.of_nat j) * 32) by lia.
    apply Z.mod_mul. lia. }
  assert (Hdiv : (4 - 32 * Z.of_nat j - 4) / 32 = - Z.of_nat j).
  { replace (4 - 32 * Z.of_nat j - 4) with ((- Z.of_nat j) * 32) by lia.
    apply Z.div_mul. lia. }
  assert (Hlen : (Z.of_nat (List.length params) <=? - Z.of_nat j) = false).
  { apply Z.leb_gt. lia. }
  split.
  - intros p Hle Hn.
    rewrite resolve_read, (@resolve_at_int target GREEN ENDC cleanup st params _ _ Hact).
    rewrite Hmod, Hdiv, Hlen. simpl.
    rewrite (py_index_from_end params (conj Hj Hle) Hn). reflexivity.
  - intros Hlt.
    rewrite resolve_read, (@resolve_at_int target GREEN ENDC cleanup st params _ _ Hact).
    rewrite Hmod, Hdiv, Hlen. simpl.
    rewrite (py_index_before_start params Hlt). reflexivity.
Qed.

(** X9: an offset that is not an integer and matches none of the three
    shapes is returned as [cleanup_mul_1] leaves the whole read, not as it
    was passed; and the length shape over a pointer that is not a string
    raises [TypeError]. *)
Theorem get_param_name_unmatched_offset
    (st : Storage target) (params : list Param) (add_color : bool) :
  active st params ->
  (forall s : string,
     resolve st (cd_read (EStr s)) add_color = Ok (cleanup (cd_read (EStr s)))) /\
  (forall (k : Z) (p : expr),
     k <> 4 ->
     resolve st (cd_read (add_param k p)) add_color
       = Ok (cleanup (cd_read (add_param k p)))) /\
  (forall (op : string) (k : Z) (inner : expr),
     op <> "add" ->
     resolve st (cd_read (ETuple [EStr op; EInt k; cd_read inner])) add_color
       = Ok (cleanup (cd_read (ETuple [EStr op; EInt k; cd_read inner])))) /\
  (forall p : expr,
     (forall s, p <> EStr s) ->
     resolve st (cd_read (add_param 4 p)) add_color = Raise TypeError).
Proof.
  intros (abi & func & Ha & Hf & Hp). repeat split.
  - intros s. rewrite resolve_read. simpl. rewrite Ha, Hf, Hp. reflexivity.
  - intros k p Hk. rewrite resolve_read. simpl. rewrite Ha, Hf, Hp.
    destruct (Z.eqb_spec k 4) as [E | _]; [contradiction | reflexivity].
  - intros op k inner Hop. rewrite resolve_read. simpl. rewrite Ha, Hf, Hp.
    destruct (String.eqb_spec op "add") as [E | _]; [contradiction | reflexivity].
  - intros p Hns. rewrite resolve_read. simpl. rewrite Ha, Hf, Hp.
    destruct p as [z | s | l]; try reflexivity. exfalso. now apply (Hns s).
Qed.

End ResolverEdges.

(** * Properties of the bound function *)

Module BoundFacts.

Import Api ApiFacts.
Local Open Scope string_scope.

Section Bound.

Variable target : Type.
Variables GREEN ENDC : string.
Variable cleanup : expr -> expr.

(** The entry [set_func_params_if_none] leaves in place of [e]. *)
Lemma set_params_steps (s : PyState target) (h : string) (loc : nat)
    (e : ABIEntry target) (ps : list (string * string)) :
  abi_entry s h = Return loc ->
  deref s loc = Some e ->
  e_params e = None ->
  let e' := mkEntry (e_fname e) (e_name e) (e_folded_name e)
                    (Some (map (fun tn => mkParam (fst tn) (snd tn)) ps))
                    (e_target e) in
  let s1 := mkPyState (heap s) (abi_ref s) (Some loc) in
  let s2 := mkPyState (heap_set (heap s) loc e') (abi_ref s) (Some loc) in
  set_func s h = Return s1 /\
  set_func_params_if_none s1 ps = Return s2 /\
  abi_entry s2 h = Return loc /\
  deref s2 loc = Some e'.
Proof.
  intros Ha Hd Hp e' s1 s2.
  assert (Hs1 : set_func s h = Return s1).
  { unfold set_func. unfold abi_entry in Ha.
    destruct (abi_ref s) as [d |] eqn:Ed; [| discriminate].
    unfold abi_entry. rewrite Ed. destruct (dict_get d h); [| discriminate].
    injection Ha as ->. reflexivity. }
  split; [exact Hs1 |]. split; [| split].
  - unfold set_func_params_if_none, entry_at, deref. simpl.
    unfold deref in Hd. rewrite Hd. simpl. rewrite Hp. reflexivity.
  - exact Ha.
  - unfold deref. simpl. now apply heap_set_same with (e := e).
Qed.

(** X10: parameters given through [set_func_params_if_none] to the function
    bound by [set_func] are written into the entry the ABI holds: the ABI's
    own accessor returns them, and a read at offset [4 + 32 * i] resolves
    to the [i]-th name. *)
Theorem set_func_params_reach_abi (s : PyState target) (h : string) (loc : nat)
    (e : ABIEntry target) (ps : list (string * string)) :
  abi_entry s h = Return loc ->
  deref s loc = Some e ->
  e_params e = None ->
  exists s1 s2,
    set_func s h = Return s1 /\
    set_func_params_if_none s1 ps = Return s2 /\
    get_func_params s2 h = Return (map (fun tn => mkParam (fst tn) (snd tn)) ps) /\
    forall (i : nat) (t n : string),
      nth_error ps i = Some (t, n) ->
      get_param_name GREEN ENDC cleanup (storage_of s2)
                     (cd_read (EInt (4 + 32 * Z.of_nat i))) false
        = Ok (EStr n).
Proof.
  intros Ha Hd Hp.
  destruct (set_params_steps s h ps Ha Hd Hp) as (H1 & H2 & H3 & H4).
  eexists. eexists. split; [exact H1 |]. split; [exact H2 |]. split.
  - unfold get_func_params, entry_at. rewrite H3. simpl. rewrite H4. reflexivity.
  - intros i t n Hn.
    set (params := map (fun tn => mkParam (fst tn) (snd tn)) ps).
    match goal with |- get_param_name _ _ _ (storage_of ?s2) _ _ = _ =>
      assert (Hact : active (storage_of s2) params) end.
    { unfold active, storage_of. simpl.
      unfold abi_entry in Ha. destruct (abi_ref s) as [d |]; [| discriminate].
      eexists. eexists. split; [reflexivity |].
      unfold deref in H4. simpl in H4. split; [exact H4 | reflexivity]. }
    rewrite resolve_read.
    rewrite (@resolve_at_int target GREEN ENDC cleanup _ params _ _ Hact).
    replace (4 + 32 * Z.of_nat i - 4)%Z with (Z.of_nat i * 32)%Z by lia.
    rewrite Z.mod_mul, Z.div_mul by lia. simpl negb. cbv iota.
    assert (Hnth : nth_error params i = Some (mkParam t n)).
    { unfold params. rewrite nth_error_map, Hn. reflexivity. }
    assert (Hlt : (i < List.length params)%nat) by (apply nth_error_Some; congruence).
    destruct (Z.leb_spec (Z.of_nat (List.length params)) (Z.of_nat i)); [lia |].
    rewrite (py_index_nth _ _ Hnth). reflexivity.
Qed.

(** X11: the parameter list of a bound function is set once: after a call of
    [set_func_params_if_none] that returns, a further call, with whatever
    parameters, changes nothing. *)
Theorem set_func_params_only_once (s s1 : PyState target)
    (ps ps' : list (string * string)) :
  set_func_params_if_none s ps = Return s1 ->
  set_func_params_if_none s1 ps' = Return s1.
Proof.
  unfold set_func_params_if_none, entry_at, deref.
  destruct (func_ref s) as [loc |] eqn:Ef; [| discriminate].
  destruct (nth_error (heap s) loc) as [e |] eqn:Ed; [| discriminate]. simpl.
  destruct (e_params e) as [p |] eqn:Ep.
  - intros H. injection H as <-. rewrite Ef, Ed. simpl. now rewrite Ep.
  - intros H. injection H as <-. simpl.
    rewrite (heap_set_same _ _ _ Ed). reflexivity.
Qed.

(** X12: an entry that was not adopted from a candidate has no ["name"] key.
    Before parameters are set for it [get_func_name] returns its folded
    name and [get_abi_name] returns [None]; once
    [set_func_params_if_none] has given it parameters, both raise
    [KeyError]. *)
Theorem accessors_after_params_on_unnamed (s : PyState target) (h : string)
    (loc : nat) (e : ABIEntry target) (ps : list (string * string))
    (add_color : bool) :
  abi_entry s h = Return loc ->
  deref s loc = Some e ->
  e_params e = None ->
  e_name e = None ->
  get_func_name GREEN ENDC s h add_color = field (e_folded_name e) /\
  get_abi_name s h = Return None /\
  exists s1 s2,
    set_func s h = Return s1 /\
    set_func_params_if_none s1 ps = Return s2 /\
    get_func_name GREEN ENDC s2 h add_color = Throw KeyError /\
    get_abi_name s2 h = Throw KeyError.
Proof.
  intros Ha Hd Hp Hn.
  destruct (set_params_steps s h ps Ha Hd Hp) as (H1 & H2 & H3 & H4).
  split; [| split].
  - unfold get_func_name, entry_at. rewrite Ha. simpl. rewrite Hd. simpl. now rewrite Hp.
  - unfold get_abi_name, entry_at. rewrite Ha. simpl. rewrite Hd. simpl. now rewrite Hp.
  - eexists. eexists. split; [exact H1 |]. split; [exact H2 |]. split.
    + unfold get_func_name, entry_at. rewrite H3. simpl. rewrite H4. simpl.
      rewrite Hn. reflexivity.
    + unfold get_abi_name, entry_at. rewrite H3. simpl. rewrite H4. simpl.
      rewrite Hn. reflexivity.
Qed.

End Bound.

End BoundFacts.

(** * Properties of the rendered signatures *)

Module RenderFacts.

Import Api ApiFacts.
Local Open Scope string_scope.

Lemma str_last_snoc (n : string) (c : ascii) :
  str_last (n ++ String c EmptyString) = Some c.
Proof.
  induction n as [| d n IH]; [reflexivity |].
  simpl append. simpl str_last. rewrite IH.
  destruct (n ++ String c EmptyString) eqn:E; [| reflexivity].
  destruct n; discriminate.
Qed.

Lemma str_init_snoc (n : string) (c : ascii) :
  str_init (n ++ String c EmptyString) = n.
Proof.
  induction n as [| d n IH]; [reflexivity |].
  simpl append. simpl str_init. rewrite IH.
  destruct (n ++ String c EmptyString) eqn:E; [| reflexivity].
  destruct n; discriminate.
Qed.

Lemma str_last_none (n : string) : str_last n = None <-> n = EmptyString.
Proof.
  split; [| now intros ->].
  induction n as [| d n IH]; [reflexivity |].
  simpl. destruct n; [discriminate |]. intros H. apply IH in H. discriminate.
Qed.

Section Render.

Variable target : Type.
Variables GREEN ENDC : string.

Lemma render_params_underscore (l : list (string * string)) :
  render_params GREEN ENDC
    (map (fun tn => mkParam (fst tn) (snd tn ++ "_")) l) false
  = Return (map (fun tn => fst tn ++ " " ++ snd tn) l).
Proof.
  induction l as [| [t n] l IH]; [reflexivity |].
  simpl map. simpl render_params. unfold strip_underscore.
  rewrite str_last_snoc, str_init_snoc. simpl. rewrite IH. reflexivity.
Qed.

Lemma render_params_empty_name (params : list Param) (c : bool) :
  (exists x, In x params /\ p_name x = EmptyString) ->
  render_params GREEN ENDC params c = Throw (Builtin IndexError).
Proof.
  induction params as [| y params IH]; intros (x & Hin & Hx); [contradiction |].
  simpl. unfold strip_underscore.
  destruct (str_last (p_name y)) as [ch |] eqn:El; [| reflexivity].
  simpl. rewrite IH; [reflexivity |].
  destruct Hin as [-> | Hin]; [| now exists x].
  rewrite Hx in El. discriminate.
Qed.

(** X13: [get_func_name] shows a parameter whose name ends in an underscore
    without that underscore: for parameters [(t1, n1_), (t2, n2_), ...] of
    the function [name] it returns [name(t1 n1, t2 n2, ...)]. *)
Theorem get_func_name_strips_underscore (s : PyState target) (h : string)
    (loc : nat) (e : ABIEntry target) (name : string)
    (l : list (string * string)) :
  abi_entry s h = Return loc ->
  deref s loc = Some e ->
  e_name e = Some name ->
  e_params e = Some (map (fun tn => mkParam (fst tn) (snd tn ++ "_")) l) ->
  get_func_name GREEN ENDC s h false
    = Return (name ++ "(" ++ PyStr.join ", " (map (fun tn => fst tn ++ " " ++ snd tn) l)
                   ++ ")").
Proof.
  intros Ha Hd Hn Hp. unfold get_func_name, entry_at.
  rewrite Ha. simpl. rewrite Hd. simpl. rewrite Hp, Hn. simpl.
  rewrite render_params_underscore. reflexivity.
Qed.

(** X14: a parameter with an empty name makes [get_func_name] raise
    [IndexError], for it reads the last character of every name; the other
    two accessors do not look at the names and return. *)
Theorem get_func_name_empty_param_name (s : PyState target) (h : string)
    (loc : nat) (e : ABIEntry target) (name : string) (params : list Param)
    (add_color : bool) :
  abi_entry s h = Return loc ->
  deref s loc = Some e ->
  e_name e = Some name ->
  e_params e = Some params ->
  (exists x, In x params /\ p_name x = EmptyString) ->
  get_func_name GREEN ENDC s h add_color = Throw (Builtin IndexError) /\
  get_func_params s h = Return params /\
  get_abi_name s h
    = Return (Some (name ++ "(" ++ PyStr.join "," (map p_type params) ++ ")")).
Proof.
  intros Ha Hd Hn Hp Hx. unfold get_func_name, get_func_params, get_abi_name, entry_at.
  rewrite Ha. simpl. rewrite Hd. simpl. rewrite Hp, Hn. simpl.
  rewrite (render_params_empty_name _ add_color Hx). repeat split.
Qed.

End Render.

End RenderFacts.

(** * More properties of the corpus files *)

Module CorpusFacts.

Import Supplement Corpus.
Local Open Scope string_scope.

(** X15: a second [check_supplements] after one that returned changes
    nothing, whatever the archive holds. *)
Theorem check_supplements_idempotent (fs fs' : FS) :
  check_supplements fs = Ok fs' -> check_supplements fs' = Ok fs'.
Proof.
  destruct fs as [c d x]. unfold check_supplements, check_supplements_at. simpl.
  destruct d as [[rows |] |]; simpl.
  - intros H. injection H as <-. reflexivity.
  - destruct x as [f |]; simpl; [| discriminate].
    intros H. injection H as <-. simpl. destruct f; reflexivity.
  - destruct x as [f |]; simpl; [| discriminate].
    intros H. injection H as <-. simpl. destruct f; reflexivity.
Qed.

(** X16: [check_supplements] writes the working copy only: when it returns,
    the working copy exists, and the archive and the file of the cache
    directory are as they were. *)
Theorem check_supplements_frame (fs fs' : FS) :
  check_supplements fs = Ok fs' ->
  is_file fs' (supplements_path fs') = true /\
  read fs' compressed_supplements_path = read fs compressed_supplements_path /\
  read fs' CacheDb = read fs CacheDb.
Proof.
  destruct fs as [c d x]. unfold check_supplements, check_supplements_at. simpl.
  destruct d as [[rows |] |]; simpl.
  - intros H. injection H as <-. repeat split.
  - destruct x as [f |]; simpl; [| discriminate].
    intros H. injection H as <-. repeat split.
  - destruct x as [f |]; simpl; [| discriminate].
    intros H. injection H as <-. repeat split.
Qed.

(** X17: the rebuilt working copy is not probed again: over an archive that
    does not hold a database, a missing or failing working copy is replaced
    by one that fails the probe, [check_supplements] returns all the same,
    and the lookup raises [DatabaseError]. *)
Theorem check_supplements_damaged_archive (fs : FS) (hash : string) :
  data_xz fs = Some Damaged ->
  data_db fs = None \/ data_db fs = Some Damaged ->
  check_supplements fs = Ok (write fs (supplements_path fs) (Some Damaged)) /\
  fetch_sigs fs hash = Raise DatabaseError.
Proof.
  destruct fs as [c d x]. simpl. intros -> [-> | ->]; split; reflexivity.
Qed.

Lemma fetch_sigs_inv (fs fs' : FS) (hash : string) (sigs : list SignatureRecord) :
  fetch_sigs fs hash = Ok (sigs, fs') ->
  check_supplements fs = Ok fs' /\
  exists rows,
    read fs' (supplements_path fs') = Some (Database rows) /\
    sigs = map sig_of_row (filter (fun r => String.eqb (r_hash r) hash) rows).
Proof.
  unfold fetch_sigs.
  destruct (check_supplements fs) as [fs1 |]; [| discriminate]. unfold bind.
  destruct (read fs1 (supplements_path fs1)) as [[rows |] |] eqn:Er; try discriminate.
  intros H. injection H as <- <-. split; [reflexivity |].
  exists rows. split; [exact Er | reflexivity].
Qed.

Lemma fetched_rows_well_formed (hash : string) (rows : list Row) (f : SignatureRecord) :
  In f (map sig_of_row (filter (fun r => String.eqb (r_hash r) hash) rows)) ->
  s_hash f = hash /\ s_cooccurs f <> [].
Proof.
  intros Hin. apply in_map_iff in Hin as (row & <- & Hrow).
  apply filter_In in Hrow as [_ Hh]. apply String.eqb_eq in Hh.
  split; [exact Hh | apply ScoreFacts.split_nonempty].
Qed.

(** X18: every candidate [fetch_sigs] returns is a row of the working copy
    left by the check, carries the selector asked for, and has a
    co-occurrence list with at least one element. *)
Theorem fetch_sigs_candidates (fs fs' : FS) (hash : string)
    (sigs : list SignatureRecord) :
  fetch_sigs fs hash = Ok (sigs, fs') ->
  check_supplements fs = Ok fs' /\
  (exists rows,
     read fs' (supplements_path fs') = Some (Database rows) /\
     sigs = map sig_of_row (filter (fun r => String.eqb (r_hash r) hash) rows)) /\
  forall f, In f sigs -> s_hash f = hash /\ s_cooccurs f <> [].
Proof.
  intros H. destruct (fetch_sigs_inv _ _ H) as (Hc & rows & Hr & ->).
  split; [exact Hc |]. split; [now exists rows |].
  intros f. apply fetched_rows_well_formed.
Qed.

(** The store read off given files is one [make_abi] can score. *)
Lemma store_of_well_formed (fs : FS) : store_well_formed (store_of fs).
Proof.
  intros h f. unfold store_of.
  destruct (fetch_sigs fs h) as [[sigs fs'] |] eqn:E; [| intros []].
  destruct (fetch_sigs_inv _ _ E) as (_ & rows & _ & ->).
  intros Hin. now apply (fetched_rows_well_formed h rows f).
Qed.

(** X19: [decompress_supplements] only deletes a decompressed file that
    fails the probe; it takes a second call to rebuild it.  Over an archive
    that holds a database, whatever the first call leaves, the second call
    leaves a decompressed file that passes the probe. *)
Theorem decompress_supplements_twice (fs : FS) (rows : list Row) :
  data_xz fs = Some (Database rows) ->
  (data_db fs = Some Damaged ->
   decompress_supplements fs = Ok (remove fs decompressed_supplements_path)) /\
  exists fs1 fs2 f,
    decompress_supplements fs = Ok fs1 /\
    decompress_supplements fs1 = Ok fs2 /\
    read fs2 decompressed_supplements_path = Some f /\
    probe f = true.
Proof.
  destruct fs as [c d x]. simpl. intros ->. split.
  - intros ->. reflexivity.
  - destruct d as [[rows' |] |].
    + eexists. eexists. exists (Database rows'). repeat split.
    + eexists. eexists. exists (Database rows). repeat split.
    + eexists. eexists. exists (Database rows). repeat split.
Qed.

End CorpusFacts.

(** * Properties of [fetch_sig] and of the stored co-occurrence lists *)

Module FetchFacts.

Import Supplement Corpus.
Local Open Scope string_scope.

Lemma max_by_cooccurs_spec (best : Row) (rest : list Row) :
  exists pre row post,
    best :: rest = (pre ++ row :: post)%list /\
    max_by_cooccurs best rest = row /\
    (forall r, In r pre -> (clen r < clen row)%nat) /\
    (forall r, In r post -> (clen r <= clen row)%nat).
Proof.
  revert best. induction rest as [| r rest IH]; intros best.
  - exists [], best, []. split; [reflexivity |]. split; [reflexivity |].
    split; intros ? [].
  - simpl. fold (clen best) (clen r).
    destruct (Nat.ltb_spec (clen best) (clen r)) as [Hlt | Hge].
    + destruct (IH r) as (pre & row & post & Heq & Hmax & Hpre & Hpost).
      exists (best :: pre), row, post. rewrite Heq.
      split; [reflexivity |]. split; [exact Hmax |]. split; [| exact Hpost].
      intros x [<- | Hx]; [| now apply Hpre].
      destruct pre as [| y pre]; simpl in Heq; injection Heq as <-; [exact Hlt |].
      specialize (Hpre r (or_introl eq_refl)). lia.
    + destruct (IH best) as (pre & row & post & Heq & Hmax & Hpre & Hpost).
      destruct pre as [| y pre]; simpl in Heq.
      * injection Heq as <- <-. exists [], best, (r :: rest).
        split; [reflexivity |]. split; [exact Hmax |]. split; [intros ? [] |].
        intros x [<- | Hx]; [exact Hge | now apply Hpost].
      * injection Heq as <- ->. exists (best :: r :: pre), row, post.
        split; [reflexivity |]. split; [exact Hmax |]. split; [| exact Hpost].
        pose proof (Hpre best (or_introl eq_refl)) as Hb.
        intros x [<- | [<- | Hx]]; [exact Hb | lia |].
        apply Hpre. now right.
Qed.

Section FetchSig.

Variable int16 : string -> result Z.

(** X20: [fetch_sig] on an integer looks the selector up in the form [0x]
    and eight hexadecimal digits, answers [None] when no row has it, and
    otherwise answers from the first of the rows whose [cooccurs] text is
    longest: every row before it is strictly shorter, none after it is
    longer.  The hash it returns is the formatted one. *)
Theorem fetch_sig_first_longest (fs fs' : FS) (z : Z) (res : option SigInfo) :
  fetch_sig int16 fs (HashInt z) = Ok (res, fs') ->
  exists rows,
    read fs' (supplements_path fs') = Some (Database rows) /\
    let found := filter (fun r => String.eqb (r_hash r) (format_hash z)) rows in
    match res with
    | None => found = []
    | Some info =>
        exists pre row post,
          found = (pre ++ row :: post)%list /\
          info = mkSigInfo (format_hash z) (r_name row) (r_folded_name row)
                           (r_params row) /\
          (forall r, In r pre ->
             (String.length (r_cooccurs r) < String.length (r_cooccurs row))%nat) /\
          (forall r, In r post ->
             (String.length (r_cooccurs r) <= String.length (r_cooccurs row))%nat)
    end.
Proof.
  unfold fetch_sig, bind. cbv beta iota zeta.
  destruct (check_supplements fs) as [fs1 |]; [| discriminate].
  destruct (read fs1 (supplements_path fs1)) as [[rows |] |] eqn:Er; try discriminate.
  destruct (filter (fun r => String.eqb (r_hash r) (format_hash z)) rows)
    as [| first others] eqn:Ef.
  - intros H. injection H as <- <-. exists rows. split; [exact Er |].
    cbv zeta. exact Ef.
  - intros H. injection H as <- <-. exists rows. split; [exact Er |].
    cbv zeta. rewrite Ef.
    destruct (max_by_cooccurs_spec first others)
      as (pre & row & post & Heq & Hmax & Hpre & Hpost).
    exists pre, row, post. rewrite Hmax. repeat split; auto.
Qed.

End FetchSig.

Lemma split_no_sep (sep : ascii) (x : string) :
  PyStr.mem_char sep x = false -> PyStr.split sep x = [x].
Proof.
  induction x as [| c x IH]; intros H; [reflexivity |].
  simpl in H. apply orb_false_elim in H as [Hc Hx].
  simpl. rewrite Ascii.eqb_sym, Hc, (IH Hx). reflexivity.
Qed.

Lemma split_app_sep (sep : ascii) (x rest : string) :
  PyStr.mem_char sep x = false ->
  PyStr.split sep (x ++ String sep rest) = x :: PyStr.split sep rest.
Proof.
  induction x as [| c x IH]; intros H.
  - simpl. now rewrite Ascii.eqb_refl.
  - simpl in H. apply orb_false_elim in H as [Hc Hx].
    simpl. rewrite Ascii.eqb_sym, Hc, (IH Hx). reflexivity.
Qed.

Lemma split_join (l : list string) :
  l <> [] ->
  (forall x, In x l -> PyStr.mem_char "," x = false) ->
  PyStr.split "," (PyStr.join "," l) = l.
Proof.
  induction l as [| x l IH]; intros Hne Hl; [contradiction |].
  destruct l as [| y l].
  - simpl. apply split_no_sep, Hl. now left.
  - change (PyStr.join "," (x :: y :: l))
      with (x ++ String "," (PyStr.join "," (y :: l))).
    rewrite split_app_sep by (apply Hl; now left).
    rewrite IH; [reflexivity | discriminate |].
    intros z Hz. apply Hl. now right.
Qed.

(** X21: a non-empty list of selectors stored the way the crawler stores it,
    joined with commas, is the [cooccurs] list [fetch_sigs] builds from the
    row, provided no selector holds a comma. *)
Theorem cooccurs_round_trip (hash name folded : string) (params : list Param)
    (cooccurs : list string) :
  cooccurs <> [] ->
  (forall x, In x cooccurs -> PyStr.mem_char "," x = false) ->
  s_cooccurs (sig_of_row (mkRow hash name folded params (PyStr.join "," cooccurs)))
    = cooccurs.
Proof. intros Hne Hl. simpl. now apply split_join. Qed.

End FetchFacts.

(** * Properties of the crawler's parser *)

Module CrawlerFacts.

Import Api Crawler.
Local Open Scope string_scope.

(** One round of the loop, the inner loop being [parse_loop] itself. *)
Lemma parse_item_eq (t n : string) (components : option (list abi_input)) (k : Z) :
  parse_item (AbiInput t n components) k =
    if negb (PyStr.contains "tuple" t) then Return (t, mkParam t (param_name n k))
    else match components with
         | None => Throw KeyError
         | Some cs =>
             inner <~ parse_loop cs 0%Z ;;
             Return ("(" ++ PyStr.join "," (fst inner) ++ ")" ++ drop5 t,
                     mkParam t (param_name n k))
         end.
Proof. reflexivity. Qed.

Lemma parse_item_param (r : abi_input) (k : Z) (tp : string * Param) :
  parse_item r k = Return tp ->
  snd tp = mkParam (input_type r) (param_name (input_name r) k).
Proof.
  destruct r as [t n components]. rewrite parse_item_eq.
  destruct (negb (PyStr.contains "tuple" t)).
  - intros H. injection H as <-. reflexivity.
  - destruct components as [cs |]; [| discriminate].
    destruct (parse_loop cs 0%Z); simpl; [| discriminate].
    intros H. injection H as <-. reflexivity.
Qed.

Lemma parse_loop_params (l : list abi_input) (k : Z)
    (res : list string * list Param) :
  parse_loop l k = Return res -> snd res = named_params l k.
Proof.
  revert k res. induction l as [| r l IH]; intros k res H; simpl in H.
  - injection H as <-. reflexivity.
  - destruct (parse_item r (k + 1)) as [tp |] eqn:Ei; simpl in H; [| discriminate].
    destruct (parse_loop l (k + 1)) as [more |] eqn:El; simpl in H; [| discriminate].
    injection H as <-. simpl.
    now rewrite (parse_item_param _ _ Ei), (IH _ _ El).
Qed.

Lemma param_name_underscore (n : string) (k : Z) :
  exists rest, param_name n k = String "_" rest.
Proof.
  unfold param_name. destruct n as [| c n]; simpl.
  - eexists. reflexivity.
  - destruct (Ascii.eqb_spec c "_") as [-> | _]; eexists; reflexivity.
Qed.

Lemma named_params_In (l : list abi_input) (k : Z) (p : Param) :
  In p (named_params l k) ->
  exists r k', In r l /\ p = mkParam (input_type r) (param_name (input_name r) k').
Proof.
  revert k. induction l as [| r l IH]; intros k; simpl; [intros [] |].
  intros [<- | Hin].
  - exists r, (k + 1)%Z. split; [now left | reflexivity].
  - destruct (IH _ Hin) as (r' & k' & Hr & ->). exists r', k'. split; [now right | reflexivity].
Qed.

Lemma named_params_types (l : list abi_input) (k : Z) :
  map p_type (named_params l k) = map input_type l.
Proof.
  revert k. induction l as [| r l IH]; intros k; simpl; [reflexivity |].
  now rewrite IH.
Qed.

Section Rendering.

Variables GREEN ENDC : string.

Lemma render_params_named (ps : list Param) (c : bool) :
  (forall p, In p ps -> exists rest, p_name p = String "_" rest) ->
  exists items, render_params GREEN ENDC ps c = Return items.
Proof.
  induction ps as [| p ps IH]; intros H; [now exists [] |].
  destruct (H p (or_introl eq_refl)) as [rest Hp].
  destruct IH as [items Hi]; [intros q Hq; apply H; now right |].
  simpl. unfold strip_underscore. rewrite Hp.
  destruct (str_last (String "_" rest)) as [ch |] eqn:El.
  - simpl. rewrite Hi. simpl. eexists. reflexivity.
  - apply RenderFacts.str_last_none in El. discriminate.
Qed.

(** X22: when [parse_inputs] returns, it has made one parameter per input,
    in order and with the input's type, and every name it gives starts with
    an underscore; so [get_func_name]'s rendering of these parameters,
    which reads the last character of each name, does not raise. *)
Theorem parse_inputs_names (l : list abi_input) (inputs : string)
    (ps : list Param) (add_color : bool) :
  parse_inputs l = Return (inputs, ps) ->
  List.length ps = List.length l /\
  map p_type ps = map input_type l /\
  (forall p, In p ps -> exists rest, p_name p = String "_" rest) /\
  exists items, render_params GREEN ENDC ps add_color = Return items.
Proof.
  unfold parse_inputs. destruct (parse_loop l 0%Z) as [res |] eqn:El; simpl;
    [| discriminate].
  intros H. injection H as <- <-. rewrite (parse_loop_params _ _ El).
  assert (Hn : forall p, In p (named_params l 0%Z) ->
                 exists rest, p_name p = String "_" rest).
  { intros p Hin. destruct (named_params_In _ _ _ Hin) as (r & k & _ & ->).
    apply param_name_underscore. }
  split; [| split; [| split]].
  - rewrite <- (length_map p_type), named_params_types. apply length_map.
  - apply named_params_types.
  - exact Hn.
  - now apply render_params_named.
Qed.

End Rendering.

Lemma named_params_unnamed (l : list abi_input) (k : Z) :
  (exists r, In r l /\ input_name r = EmptyString) ->
  existsb ScoreAux.mentions_param (named_params l k) = true.
Proof.
  revert k. induction l as [| r l IH]; intros k (x & Hin & Hx); [contradiction |].
  simpl named_params. simpl existsb. destruct Hin as [-> | Hin].
  - rewrite Hx. apply orb_true_iff. left.
    unfold ScoreAux.mentions_param. apply orb_true_iff. right. simpl p_name.
    apply PyStrFacts.contains_split.
    exists "_", (PyStr.of_int (k + 1)). reflexivity.
  - apply orb_true_iff. right. apply IH. now exists x.
Qed.

(** X23: an input without a name is called [_param] and its position, so a
    signature that is given the parameters [parse_inputs] made from inputs
    of which one is unnamed has [score_c = 0]. *)
Theorem parse_inputs_unnamed_scores_zero (l : list abi_input) (inputs : string)
    (ps : list Param) (func : SignatureRecord) :
  parse_inputs l = Return (inputs, ps) ->
  (exists r, In r l /\ input_name r = EmptyString) ->
  s_params func = ps ->
  Score.score_c func = 0%Z.
Proof.
  unfold parse_inputs. destruct (parse_loop l 0%Z) as [res |] eqn:El; simpl;
    [| discriminate].
  intros H Hun Hf. injection H as <- <-.
  rewrite ScoreFacts.score_c_eq, Hf, (parse_loop_params _ _ El).
  now rewrite (named_params_unnamed _ 0%Z Hun).
Qed.

Lemma parse_loop_flat (l : list abi_input) (k : Z) :
  flat l -> parse_loop l k = Return (map input_type l, named_params l k).
Proof.
  revert k. induction l as [| r l IH]; intros k Hf; [reflexivity |].
  simpl parse_loop. destruct r as [t n components]. rewrite parse_item_eq.
  pose proof (Hf _ (or_introl eq_refl)) as Ht. simpl in Ht. rewrite Ht. simpl.
  rewrite IH; [reflexivity |]. intros x Hx. apply Hf. now right.
Qed.

(** X24: over inputs without tuple types [parse_inputs] returns, the text it
    makes is the types joined by commas, and the ABI name [get_abi_name]
    rebuilds from the stored parameters of an entry of that name is the
    folded name the crawler stores, the name followed by that text in
    parentheses. *)
Theorem parse_inputs_flat_abi_name (target : Type) (l : list abi_input)
    (s : PyState target) (h name : string) (loc : nat) (e : ABIEntry target) :
  flat l ->
  abi_entry s h = Return loc ->
  deref s loc = Some e ->
  e_name e = Some name ->
  e_params e = Some (named_params l 0%Z) ->
  parse_inputs l
    = Return (PyStr.join "," (map input_type l), named_params l 0%Z) /\
  get_abi_name s h
    = Return (Some (name ++ "(" ++ PyStr.join "," (map input_type l) ++ ")")).
Proof.
  intros Hf Ha Hd Hn Hp. split.
  - unfold parse_inputs. rewrite (parse_loop_flat 0%Z Hf). reflexivity.
  - unfold get_abi_name, entry_at. rewrite Ha. simpl. rewrite Hd. simpl.
    rewrite Hp, Hn. simpl. now rewrite named_params_types.
Qed.

End CrawlerFacts.

(** * The further properties on the examples *)

Section MoreWitnesses.

Local Open Scope string_scope.

Lemma nodup_mixed : NoDup (keys targets_mixed).
Proof. repeat constructor; simpl; intuition discriminate. Defined.

Lemma run_mixed :
  make_abi store_transfer ex_digest ex_cache_dir targets_mixed (mkStorage None None) []
  = Ok (abi_mixed, mkStorage (Some abi_mixed) None,
        write_file [] (cache_fname ex_digest ex_cache_dir targets_mixed) abi_mixed).
Proof. vm_compute. reflexivity. Defined.

Lemma scan_sigs_last_positive_witness :
  scan_sigs (keys targets_transfer) ([cand_transfer] ++ [cand_babbage])
            (placeholder nat "0xa9059cbb")
  = Ok (adopted nat cand_babbage).
Proof.
  apply (@scan_sigs_last_positive nat (keys targets_transfer) [cand_transfer] []
           cand_babbage 6%float (placeholder nat "0xa9059cbb")).
  - intros g [<- | []]. exists 111%float. vm_compute. reflexivity.
  - vm_compute. reflexivity.
  - vm_compute. reflexivity.
  - intros g [].
Defined.

Lemma make_abi_entries_cover_witness :
  map (fun kv => (fst kv, e_target (snd kv))) abi_mixed
  = [("0xa9059cbb", Some 1%nat); ("_fallback", Some 2%nat); ("0x70a08231", Some 3%nat)].
Proof.
  apply (@make_abi_entries_cover nat store_transfer ex_digest ex_cache_dir
           targets_mixed (mkStorage None None) _ [] _ abi_mixed
           nodup_mixed eq_refl run_mixed).
Defined.

Lemma make_abi_tag_entry_witness :
  Api.get_func_name ex_green ex_endc state_mixed "_fallback" false
  = Api.Return "_fallback".
Proof.
  apply (@make_abi_tag_entry nat store_transfer ex_digest ex_cache_dir
           ex_green ex_endc targets_mixed (mkStorage None None) _ [] _ abi_mixed
           "_fallback" 2%nat (Api.mkPyState [] None None) false
           nodup_mixed eq_refl run_mixed).
  - right. left. reflexivity.
  - reflexivity.
Defined.

Lemma make_abi_unknown_entry_witness :
  Api.get_func_name ex_green ex_endc state_mixed "0x70a08231" false
  = Api.Return "unknown70a08231(?)".
Proof.
  apply (@make_abi_unknown_entry nat store_transfer ex_digest ex_cache_dir
           ex_green ex_endc targets_mixed (mkStorage None None) _ [] _ abi_mixed
           "0x70a08231" 3%nat (Api.mkPyState [] None None) false
           nodup_mixed eq_refl run_mixed).
  - right. right. left. reflexivity.
  - reflexivity.
  - reflexivity.
Defined.

Lemma make_abi_params_from_store_witness :
  exists f v,
    In f (store_transfer "0xa9059cbb") /\
    Score.match_score f (keys targets_mixed) = Ok v /\
    PrimFloat.ltb 0 v = true /\
    e_name entry_babbage = Some (s_name f) /\
    e_folded_name entry_babbage = Some (s_folded_name f) /\
    [mkParam "bytes1" "_param1"] = s_params f /\
    e_fname entry_babbage = None.
Proof.
  apply (@make_abi_params_from_store nat store_transfer ex_digest ex_cache_dir
           targets_mixed (mkStorage None None) _ [] _ abi_mixed
           "0xa9059cbb" entry_babbage [mkParam "bytes1" "_param1"]
           nodup_mixed eq_refl run_mixed); reflexivity.
Defined.

Lemma make_abi_order_independent_witness :
  exists abi',
    make_abi store_transfer ex_digest ex_cache_dir (rev targets_mixed)
             (mkStorage None None) []
      = Ok (abi', mkStorage (Some abi') None,
            write_file [] (cache_fname ex_digest ex_cache_dir (rev targets_mixed)) abi') /\
    forall h, Api.dict_get abi' h = Api.dict_get abi_mixed h.
Proof.
  apply (@OrderFacts.make_abi_order_independent nat store_transfer ex_digest
           ex_cache_dir targets_mixed (rev targets_mixed)
           (mkStorage None None) (mkStorage None None) _ [] [] _ abi_mixed
           nodup_mixed (Permutation_rev targets_mixed) eq_refl eq_refl run_mixed).
Defined.

Lemma get_param_name_negative_index_witness :
  get_param_name ex_green ex_endc ex_cleanup st_from_to (cd_read (EInt (-28))) false
  = Ok (EStr "_to").
Proof.
  apply (proj1 (@get_param_name_negative_index unit ex_green ex_endc ex_cleanup
                  st_from_to [mkParam "address" "_from"; mkParam "address" "_to"]
                  1%nat false active_from_to (le_n 1))
           (mkParam "address" "_to")).
  - simpl. lia.
  - reflexivity.
Defined.

Lemma get_param_name_unmatched_offset_witness :
  get_param_name ex_green ex_endc ex_cleanup st_from_to
                 (cd_read (add_param 36 (EStr "x"))) false
  = Ok (ex_cleanup (cd_read (add_param 36 (EStr "x")))).
Proof.
  apply (proj1 (proj2 (@get_param_name_unmatched_offset unit ex_green ex_endc
                         ex_cleanup st_from_to _ false active_from_to))).
  discriminate.
Defined.

Lemma set_func_params_reach_abi_witness :
  exists s1 s2,
    Api.set_func state_mixed "0x70a08231" = Api.Return s1 /\
    Api.set_func_params_if_none s1 [("address", "_owner")] = Api.Return s2 /\
    Api.get_func_params s2 "0x70a08231" = Api.Return [mkParam "address" "_owner"] /\
    forall (i : nat) (t n : string),
      nth_error [("address", "_owner")] i = Some (t, n) ->
      get_param_name ex_green ex_endc ex_cleanup (Api.storage_of s2)
                     (cd_read (EInt (4 + 32 * Z.of_nat i))) false
        = Ok (EStr n).
Proof.
  apply (@BoundFacts.set_func_params_reach_abi nat ex_green ex_endc ex_cleanup
           state_mixed "0x70a08231" 2%nat entry_unknown [("address", "_owner")]);
    reflexivity.
Defined.

Lemma set_func_params_only_once_witness :
  exists s1,
    Api.set_func_params_if_none state_bound [("address", "_owner")] = Api.Return s1 /\
    Api.set_func_params_if_none s1 [("uint256", "_other")] = Api.Return s1.
Proof.
  eexists. split; [reflexivity |].
  apply (@BoundFacts.set_func_params_only_once nat state_bound _
           [("address", "_owner")] [("uint256", "_other")]).
  reflexivity.
Defined.

Lemma accessors_after_params_on_unnamed_witness :
  Api.get_func_name ex_green ex_endc state_mixed "0x70a08231" false
    = Api.Return "unknown70a08231(?)" /\
  Api.get_abi_name state_mixed "0x70a08231" = Api.Return None /\
  exists s1 s2,
    Api.set_func state_mixed "0x70a08231" = Api.Return s1 /\
    Api.set_func_params_if_none s1 [("address", "_owner")] = Api.Return s2 /\
    Api.get_func_name ex_green ex_endc s2 "0x70a08231" false = Api.Throw Api.KeyError /\
    Api.get_abi_name s2 "0x70a08231" = Api.Throw Api.KeyError.
Proof.
  apply (@BoundFacts.accessors_after_params_on_unnamed nat ex_green ex_endc
           state_mixed "0x70a08231" 2%nat entry_unknown [("address", "_owner")] false);
    reflexivity.
Defined.

Lemma get_func_name_strips_underscore_witness :
  Api.get_func_name ex_green ex_endc state_rendered "0x00000001" false
  = Api.Return "pay(address to, uint256 amount)".
Proof.
  eapply (@RenderFacts.get_func_name_strips_underscore nat ex_green ex_endc
           state_rendered "0x00000001" 0%nat _ "pay"
           [("address", "to"); ("uint256", "amount")]); reflexivity.
Defined.

Lemma get_func_name_empty_param_name_witness :
  Api.get_func_name ex_green ex_endc state_rendered "0x00000002" false
    = Api.Throw (Api.Builtin IndexError) /\
  Api.get_func_params state_rendered "0x00000002"
    = Api.Return [mkParam "uint256" EmptyString] /\
  Api.get_abi_name state_rendered "0x00000002" = Api.Return (Some "g(uint256)").
Proof.
  eapply (@RenderFacts.get_func_name_empty_param_name nat ex_green ex_endc
           state_rendered "0x00000002" 1%nat _ "g" [mkParam "uint256" EmptyString]
           false); try reflexivity.
  exists (mkParam "uint256" EmptyString). split; [now left | reflexivity].
Defined.

End MoreWitnesses.

Section CorpusWitnesses.

Local Open Scope string_scope.

Lemma check_supplements_idempotent_witness :
  Supplement.check_supplements fs_healed = Ok fs_healed.
Proof.
  apply (@CorpusFacts.check_supplements_idempotent fs_damaged fs_healed).
  reflexivity.
Defined.

Lemma check_supplements_frame_witness :
  Supplement.is_file fs_healed (Supplement.supplements_path fs_healed) = true /\
  Supplement.read fs_healed Supplement.compressed_supplements_path
    = Supplement.read fs_damaged Supplement.compressed_supplements_path /\
  Supplement.read fs_healed Supplement.CacheDb
    = Supplement.read fs_damaged Supplement.CacheDb.
Proof.
  apply (@CorpusFacts.check_supplements_frame fs_damaged fs_healed).
  reflexivity.
Defined.

Lemma check_supplements_no_archive_witness :
  Supplement.check_supplements fs_no_archive = Raise FileNotFoundError.
Proof.
  apply (proj1 (@SupplementFacts.check_supplements_no_archive fs_no_archive eq_refl)
           Supplement.Damaged); reflexivity.
Defined.

Lemma check_supplements_damaged_archive_witness :
  Supplement.check_supplements fs_bad_archive
    = Ok (Supplement.mkFS None (Some Supplement.Damaged) (Some Supplement.Damaged)) /\
  Supplement.fetch_sigs fs_bad_archive "0xa9059cbb" = Raise DatabaseError.
Proof.
  apply (@CorpusFacts.check_supplements_damaged_archive fs_bad_archive "0xa9059cbb").
  - reflexivity.
  - left. reflexivity.
Defined.

Lemma fetch_sigs_candidates_witness :
  Supplement.check_supplements fs_damaged = Ok fs_healed /\
  (exists rows,
     Supplement.read fs_healed (Supplement.supplements_path fs_healed)
       = Some (Supplement.Database rows) /\
     [Supplement.sig_of_row row_transfer]
       = map Supplement.sig_of_row
           (filter (fun r => String.eqb (Supplement.r_hash r) "0xa9059cbb") rows)) /\
  forall f, In f [Supplement.sig_of_row row_transfer] ->
    s_hash f = "0xa9059cbb" /\ s_cooccurs f <> [].
Proof.
  apply (@CorpusFacts.fetch_sigs_candidates fs_damaged fs_healed
           "0xa9059cbb" [Supplement.sig_of_row row_transfer]).
  reflexivity.
Defined.

Lemma decompress_supplements_twice_witness :
  Corpus.decompress_supplements fs_damaged
    = Ok (Supplement.remove fs_damaged Supplement.decompressed_supplements_path) /\
  exists fs1 fs2 f,
    Corpus.decompress_supplements fs_damaged = Ok fs1 /\
    Corpus.decompress_supplements fs1 = Ok fs2 /\
    Supplement.read fs2 Supplement.decompressed_supplements_path = Some f /\
    Supplement.probe f = true.
Proof.
  destruct (@CorpusFacts.decompress_supplements_twice fs_damaged [row_transfer] eq_refl)
    as [H1 H2].
  split; [exact (H1 eq_refl) | exact H2].
Defined.

Lemma fetch_sig_first_longest_witness :
  exists rows,
    Supplement.read fs_collision (Supplement.supplements_path fs_collision)
      = Some (Supplement.Database rows) /\
    exists pre row post,
      filter (fun r => String.eqb (Supplement.r_hash r) (Corpus.format_hash 5)) rows
        = (pre ++ row :: post)%list /\
      Corpus.mkSigInfo "0x00000005" "b" "b()" []
        = Corpus.mkSigInfo (Corpus.format_hash 5) (Supplement.r_name row)
                           (Supplement.r_folded_name row) (Supplement.r_params row) /\
      (forall r, In r pre ->
         (String.length (Supplement.r_cooccurs r)
          < String.length (Supplement.r_cooccurs row))%nat) /\
      (forall r, In r post ->
         (String.length (Supplement.r_cooccurs r)
          <= String.length (Supplement.r_cooccurs row))%nat).
Proof.
  apply (@FetchFacts.fetch_sig_first_longest ex_int16 fs_collision fs_collision 5%Z
           (Some (Corpus.mkSigInfo "0x00000005" "b" "b()" []))).
  reflexivity.
Defined.

Lemma cooccurs_round_trip_witness :
  s_cooccurs (Supplement.sig_of_row
                (Supplement.mkRow "0xa9059cbb" "transfer" "transfer(address,uint256)" []
                   (PyStr.join "," ["0xa9059cbb"; "0x70a08231"])))
  = ["0xa9059cbb"; "0x70a08231"].
Proof.
  apply (@FetchFacts.cooccurs_round_trip "0xa9059cbb" "transfer"
           "transfer(address,uint256)" [] ["0xa9059cbb"; "0x70a08231"]).
  - discriminate.
  - intros x [<- | [<- | []]]; reflexivity.
Defined.

Lemma parse_inputs_names_witness :
  List.length [mkParam "address" "_param1"; mkParam "uint256" "_value"]
    = List.length inputs_unnamed /\
  map p_type [mkParam "address" "_param1"; mkParam "uint256" "_value"]
    = map Crawler.input_type inputs_unnamed /\
  (forall p, In p [mkParam "address" "_param1"; mkParam "uint256" "_value"] ->
     exists rest, p_name p = String "_" rest) /\
  exists items,
    Api.render_params ex_green ex_endc
      [mkParam "address" "_param1"; mkParam "uint256" "_value"] false
    = Api.Return items.
Proof.
  apply (@CrawlerFacts.parse_inputs_names ex_green ex_endc inputs_unnamed
           "address,uint256" _ false).
  reflexivity.
Defined.

Lemma parse_inputs_unnamed_scores_zero_witness :
  Score.score_c (mkSig "0xa9059cbb" "transfer" "transfer(address,uint256)"
                       [mkParam "address" "_param1"; mkParam "uint256" "_value"]
                       ["0xa9059cbb"]) = 0%Z.
Proof.
  apply (@CrawlerFacts.parse_inputs_unnamed_scores_zero inputs_unnamed
           "address,uint256" [mkParam "address" "_param1"; mkParam "uint256" "_value"]).
  - reflexivity.
  - exists (Crawler.AbiInput "address" EmptyString None). split; [now left | reflexivity].
  - reflexivity.
Defined.

Lemma parse_inputs_flat_abi_name_witness :
  Crawler.parse_inputs inputs_owner
    = Api.Return ("address,uint8", [mkParam "address" "_owner"; mkParam "uint8" "_v"]) /\
  Api.get_abi_name state_rendered "0x00000003" = Api.Return (Some "h(address,uint8)").
Proof.
  eapply (@CrawlerFacts.parse_inputs_flat_abi_name nat inputs_owner state_rendered
            "0x00000003" "h" 2%nat _).
  - intros r [<- | [<- | []]]; reflexivity.
  - reflexivity.
  - reflexivity.
  - reflexivity.
  - reflexivity.
Defined.

End CorpusWitnesses.
